(** * QR-Code rendering core: canvas geometry, pixel boxes, eye predicate,
      drawer aliases and the streaming monochrome (PyPNG) backend.

    Shallow embedding of [qrcode/image/base.py] and [qrcode/image/pure.py].
    Python integers are unbounded, so they are [Z]; Python's [//] is floor
    division, which is [Z.div]; [[v] * n] and [range(n)] are empty for
    [n <= 0], which is [replicate (Z.to_nat n) v]. *)

From stdpp Require Import base numbers option list strings gmap.
From Stdlib Require Import ZArith Lia Ascii.

Local Open Scope Z_scope.

(** ** Exceptions and the result of a call that may raise *)

(** The messages of [console_scripts.main]'s [raise_error], by kind *)
Inductive parser_msg : Type :=
  | NoDrawerAliases
  | DrawerNotFound (name : string).

Inductive exn : Type :=
  | ZeroDivisionError
  | KeyError (key : string)
  | ParserError (msg : parser_msg).

Inductive result (A : Type) : Type :=
  | Ok (a : A)
  | Raise (e : exn).
Arguments Ok {A} a.
Arguments Raise {A} e.

#[global] Instance result_bind : MBind result := λ A B k r,
  match r with
  | Ok a => k a
  | Raise e => Raise e
  end.

#[global] Instance result_ret : MRet result := λ A a, Ok a.

(** Python's [a // b]: floor division, raising on a zero divisor. *)
Definition floordiv (a b : Z) : result Z :=
  if decide (b = 0) then Raise ZeroDivisionError else Ok (a / b).

(** ** [BaseImage]: the attributes set by [__init__] *)

Abbreviation Modules := (list (list bool)) (only parsing).

Record BaseImage : Type := mkBaseImage {
  border : Z;
  width : Z;
  pixel_width : Z;
  pixel_height : Z;
  text_area_height : Z;
  text_gap : Z;
  pixel_size : Z;
  box_size : Z;
  qr_offset_x : Z;
  qr_offset_y : Z;
  text_offset_y : Z;
  modules : Modules
}.

(** [int(self.pixel_width * 0.72)] and [int(available_height * 0.81)]: the
    operands are the constants 576 and 582, the double products are 414.72
    and 471.42 up to rounding far below 0.01, and [int] truncates; on these
    non-negative values that is the floor of the exact product. *)
Definition int_mul_072 (n : Z) : Z := n * 72 / 100.
Definition int_mul_081 (n : Z) : Z := n * 81 / 100.

(** [BaseImage.__init__(self, border, width, box_size, *args, **kwargs)] with
    the keyword arguments [qr_size] (optional, [int | None], so [int(qr_size)]
    is [qr_size]) and [qrcode_modules].  The positional [box_size] is bound
    and never read.  The attribute [_img], made last by the backend's
    [new_image], is the output writer and is not part of the geometry. *)
Definition init (border0 width0 box_size0 : Z) (qr_size : option Z)
    (qrcode_modules : Modules) : result BaseImage :=
  let pixel_width0 := 288 * 2 in
  let pixel_height0 := 432 * 2 in
  let text_area_height0 := 120 * 2 in
  let text_gap0 := 42 in
  let qr_modules := width0 + border0 * 2 in
  '(box_size1, pixel_size1) ←
    match qr_size with
    | Some q =>
        let pixel_size0 := q in
        d ← floordiv pixel_size0 qr_modules;
        let box_size1 := Z.max 1 d in
        let pixel_size1 := qr_modules * box_size1 in
        Ok (box_size1, pixel_size1)
    | None =>
        let max_qr_width := int_mul_072 pixel_width0 in
        let available_height := pixel_height0 - text_area_height0 - text_gap0 in
        let max_qr_height := int_mul_081 available_height in
        let max_qr_size := Z.min max_qr_width max_qr_height in
        d ← floordiv max_qr_size qr_modules;
        let box_size1 := Z.max 1 d in
        let pixel_size1 := qr_modules * box_size1 in
        Ok (box_size1, pixel_size1)
    end;
  let total_content_height := pixel_size1 + text_gap0 + text_area_height0 in
  let top_margin := (pixel_height0 - total_content_height) / 2 in
  let qr_offset_x0 := (pixel_width0 - pixel_size1) / 2 in
  let qr_offset_y0 := top_margin in
  Ok {| border := border0;
        width := width0;
        pixel_width := pixel_width0;
        pixel_height := pixel_height0;
        text_area_height := text_area_height0;
        text_gap := text_gap0;
        pixel_size := pixel_size1;
        box_size := box_size1;
        qr_offset_x := qr_offset_x0;
        qr_offset_y := qr_offset_y0;
        text_offset_y := qr_offset_y0 + pixel_size1 + text_gap0;
        modules := qrcode_modules |}.

(** [BaseImage.pixel_box(self, row, col)] *)
Definition pixel_box (self : BaseImage) (row col : Z) : (Z * Z) * (Z * Z) :=
  let x := (col + border self) * box_size self + qr_offset_x self in
  let y := (row + border self) * box_size self + qr_offset_y self in
  ((x, y), (x + box_size self - 1, y + box_size self - 1)).

(** [BaseImage.is_eye(self, row, col)] *)
Definition is_eye (self : BaseImage) (row col : Z) : bool :=
  (bool_decide (row < 7) && bool_decide (col < 7))
  || (bool_decide (row < 7) && bool_decide (width self - col < 8))
  || (bool_decide (width self - row < 8) && bool_decide (col < 7)).

(** ** [PyPNGImage]: the streaming monochrome backend

    A pixel is a Python number: the padding is the integer [1]; a data
    pixel is [not point], a [bool], and [True == 1], [False == 0]. A row is
    a list of pixels and the generator [rows_iter] is the list of the rows
    it yields, in order. *)

Abbreviation Pixel := Z (only parsing).
Abbreviation Row := (list Z) (only parsing).

Definition light : Pixel := 1.
Definition dark : Pixel := 0.

(** [not point] as a number *)
Definition py_not (point : bool) : Pixel := if point then 0 else 1.

(** [[v] * n] *)
Definition list_mul {A : Type} (v : A) (n : Z) : list A :=
  replicate (Z.to_nat n) v.

(** [for _ in range(n): yield v] *)
Definition yield_times {A : Type} (n : Z) (v : A) : list A :=
  replicate (Z.to_nat n) v.

(** [PyPNGImage.canvas_row(self)] *)
Definition canvas_row (self : BaseImage) : Row :=
  list_mul 1 (pixel_width self).

(** [PyPNGImage.border_rows_iter(self)] *)
Definition border_rows_iter (self : BaseImage) : list Row :=
  let left_padding := list_mul 1 (qr_offset_x self) in
  let border_section :=
    list_mul 1 (box_size self * (width self + border self * 2)) in
  let right_padding :=
    list_mul 1 (pixel_width self - qr_offset_x self - pixel_size self) in
  let border_row := left_padding ++ border_section ++ right_padding in
  yield_times (border self * box_size self) border_row.

(** The locals of [rows_iter] that are fixed before its data loop *)
Definition border_col (self : BaseImage) : Row :=
  list_mul 1 (box_size self * border self).
Definition left_padding (self : BaseImage) : Row :=
  list_mul 1 (qr_offset_x self).
Definition right_padding (self : BaseImage) : Row :=
  list_mul 1 (pixel_width self - qr_offset_x self - pixel_size self).

(** The locals [qr_row] and [full_row] of the data loop, for one
    [module_row] *)
Definition qr_row (self : BaseImage) (module_row : list bool) : Row :=
  border_col self
  ++ (module_row ≫= λ point, list_mul (py_not point) (box_size self))
  ++ border_col self.

Definition full_row (self : BaseImage) (module_row : list bool) : Row :=
  left_padding self ++ qr_row self module_row ++ right_padding self.

(** [PyPNGImage.rows_iter(self)] *)
Definition rows_iter (self : BaseImage) : list Row :=
  yield_times (qr_offset_y self) (canvas_row self)
  ++ border_rows_iter self
  ++ (modules self ≫= λ module_row,
        yield_times (box_size self) (full_row self module_row))
  ++ border_rows_iter self
  ++ (let remaining_height :=
        pixel_height self - qr_offset_y self - pixel_size self in
      yield_times remaining_height (canvas_row self)).

(** ** [BaseImageWithDrawer]: drawer aliases

    [QRModuleDrawer] and the keyword dictionaries of its constructors come
    from [qrcode.image.styles], outside this core; they are kept abstract.
    A drawer class is its constructor. *)

(** [DrawerAliases = dict[str, tuple[type[QRModuleDrawer], dict[str, Any]]]] *)
Abbreviation DrawerAliases QRModuleDrawer Kwargs :=
  (gmap string ((Kwargs → QRModuleDrawer) * Kwargs)) (only parsing).

Section Drawers.
Context {QRModuleDrawer Kwargs : Type}.

(** An argument of type [QRModuleDrawer | str | None] *)
Inductive drawer_arg : Type :=
  | DrawerNone
  | DrawerStr (name : string)
  | DrawerObj (d : QRModuleDrawer).

Variable drawer_aliases : DrawerAliases QRModuleDrawer Kwargs.
Variable default_drawer_class : unit → QRModuleDrawer.

(** [BaseImageWithDrawer.get_drawer(self, drawer)]; the subscript
    [self.drawer_aliases[drawer]] raises [KeyError] on a missing key. *)
Definition get_drawer (drawer : drawer_arg)
    : result (option QRModuleDrawer) :=
  match drawer with
  | DrawerStr name =>
      match drawer_aliases !! name with
      | Some (drawer_cls, kwargs) => Ok (Some (drawer_cls kwargs))
      | None => Raise (KeyError name)
      end
  | DrawerObj d => Ok (Some d)
  | DrawerNone => Ok None
  end.

Definition get_default_module_drawer : QRModuleDrawer :=
  default_drawer_class ().
Definition get_default_eye_drawer : QRModuleDrawer :=
  default_drawer_class ().

Record BaseImageWithDrawer : Type := mkBaseImageWithDrawer {
  module_drawer : QRModuleDrawer;
  eye_drawer : QRModuleDrawer;
  base : BaseImage
}.

(** [BaseImageWithDrawer.__init__]: both drawers are resolved, in this
    order, before [super().__init__] computes the geometry and creates
    the image. [d or default]: a drawer instance is truthy, [None] is
    not. *)
Definition init_with_drawer (module_drawer0 eye_drawer0 : drawer_arg)
    (border0 width0 box_size0 : Z) (qr_size : option Z)
    (qrcode_modules : Modules) : result BaseImageWithDrawer :=
  md ← get_drawer module_drawer0;
  let module_drawer1 := default get_default_module_drawer md in
  ed ← get_drawer eye_drawer0;
  let eye_drawer1 := default get_default_eye_drawer ed in
  base1 ← init border0 width0 box_size0 qr_size qrcode_modules;
  Ok {| module_drawer := module_drawer1;
        eye_drawer := eye_drawer1;
        base := base1 |}.

(** The drawer selection of [console_scripts.main]: [aliases] is the
    factory's [drawer_aliases] attribute or [None], [factory_drawer] the
    [--factory-drawer] option. [raise_error] ends the run through
    [parser.error]; the result is the [module_drawer] keyword passed to
    [make_image], if any. *)
Definition main_factory_drawer
    (aliases : option (DrawerAliases QRModuleDrawer Kwargs))
    (factory_drawer : option string) : result (option QRModuleDrawer) :=
  match factory_drawer with
  | None => Ok None
  | Some name =>
      if decide (name = EmptyString) then Ok None else
      match aliases with
      | None => Raise (ParserError NoDrawerAliases)
      | Some al =>
          if decide (al = ∅) then Raise (ParserError NoDrawerAliases) else
          match al !! name with
          | None => Raise (ParserError (DrawerNotFound name))
          | Some (drawer_cls, drawer_kwargs) =>
              Ok (Some (drawer_cls drawer_kwargs))
          end
      end
  end.
End Drawers.

Arguments drawer_arg : clear implicits.
Arguments BaseImageWithDrawer : clear implicits.

(** ** Vocabulary of the statements *)

(** The symbol size asked for: the [qr_size] keyword, or the auto-fit
    bound [min(int(576 * 0.72), int(582 * 0.81))]. *)
Definition size_request (qr_size : option Z) : Z :=
  default (Z.min (int_mul_072 (288 * 2))
                 (int_mul_081 (432 * 2 - 120 * 2 - 42))) qr_size.

(** A pixel lies in an inclusive rectangle [((x0, y0), (x1, y1))]. *)
Definition in_box (box : (Z * Z) * (Z * Z)) (px py : Z) : Prop :=
  box.1.1 ≤ px ≤ box.2.1 ∧ box.1.2 ≤ py ≤ box.2.2.

(** The interior data region of the symbol: the square of
    [width * box_size] pixels inside the border. *)
Definition in_data_region (self : BaseImage) (px py : Z) : Prop :=
  let x0 := qr_offset_x self + border self * box_size self in
  let y0 := qr_offset_y self + border self * box_size self in
  x0 ≤ px < x0 + width self * box_size self
  ∧ y0 ≤ py < y0 + width self * box_size self.

(** A module matrix of [w] rows of [w] modules. *)
Definition square_matrix (w : Z) (mods : Modules) : Prop :=
  length mods = Z.to_nat w ∧ Forall (λ r, length r = Z.to_nat w) mods.

(** Dark pixels of a pixel row; dark modules of a matrix row. *)
Definition dark_pixels (row : Row) : nat :=
  length (filter (λ p, p = dark) row).
Definition dark_modules (module_row : list bool) : nat :=
  length (filter (λ point, point = true) module_row).

(** ** Further code of the same files

    The remaining exceptions: the ones [check_kind], [get_factory] and list
    subscripts raise, the ones an import can raise, and the exit of
    [parser.error] with its message. *)

Inductive error : Type :=
  | ValueError (msg : string)
  | IndexError
  | ImportError (msg : string)
  | AttributeError (msg : string)
  | ParserExit (msg : string).

Inductive outcome (A : Type) : Type :=
  | Return (a : A)
  | Throw (e : error).
Arguments Return {A} a.
Arguments Throw {A} e.

#[global] Instance outcome_bind : MBind outcome := λ A B k r,
  match r with
  | Return a => k a
  | Throw e => Throw e
  end.

(** [l[i]]: a negative index counts from the end; out of range raises
    [IndexError]. *)
Definition py_getitem {A : Type} (l : list A) (i : Z) : outcome A :=
  let j := if decide (i < 0) then i + Z.of_nat (length l) else i in
  if decide (j < 0) then Throw IndexError else
  match l !! Z.to_nat j with
  | Some x => Return x
  | None => Throw IndexError
  end.

(** *** [BaseImage.check_kind]

    The class attributes a backend sets: its name, [kind] and
    [allowed_kinds]. *)
Record ImageClass : Type := mkImageClass {
  cls_name : string;
  cls_kind : option string;
  cls_allowed_kinds : option (list string)
}.

(** [PyPNGImage]: [kind = "PNG"], [allowed_kinds = ("PNG",)] *)
Definition PyPNGImage : ImageClass :=
  {| cls_name := "PyPNGImage";
     cls_kind := Some "PNG";
     cls_allowed_kinds := Some ["PNG"] |}.

(** [f"{kind}"] *)
Definition format_kind (kind : option string) : string :=
  match kind with
  | Some s => s
  | None => "None"
  end.

(** [not self.allowed_kinds]: [None] and the empty tuple are falsy *)
Definition no_allowed_kinds (cls : ImageClass) : bool :=
  match cls_allowed_kinds cls with
  | None | Some [] => true
  | Some (_ :: _) => false
  end.

(** [kind in self.allowed_kinds], evaluated only on a non-empty tuple *)
Definition kind_in_allowed (cls : ImageClass) (kind : option string) : bool :=
  match cls_allowed_kinds cls, kind with
  | Some allowed, Some k => bool_decide (k ∈ allowed)
  | _, _ => false
  end.

(** [BaseImage.check_kind(self, kind, transform=None)] *)
Definition check_kind (cls : ImageClass) (kind : option string)
    (transform : option (option string → option string))
    : outcome (option string) :=
  let kind1 := match kind with None => cls_kind cls | Some _ => kind end in
  let allowed := no_allowed_kinds cls || kind_in_allowed cls kind1 in
  let '(kind2, allowed2) :=
    match transform with
    | Some f =>
        let kind2 := f kind1 in
        (kind2, if allowed then allowed else kind_in_allowed cls kind2)
    | None => (kind1, allowed)
    end in
  if allowed2 then Return kind2
  else Throw (ValueError
                ("Cannot set " +:+ cls_name cls +:+ " type to "
                 +:+ format_kind kind2)).

(** *** [BaseImageWithDrawer.drawrect_context]

    The [QRCode] passed in belongs to [qrcode.main]; of it the method reads
    [qr.modules] and calls [qr.active_with_neighbors], kept abstract with
    its result type. The call [drawer.drawrect(box, is_active)] is the
    effect of the method and is returned as a value. *)
Section DrawContext.
Context {QRModuleDrawer Neighbors : Type}.

Record QRCode : Type := mkQRCode {
  qr_modules : list (list bool);
  active_with_neighbors : Z → Z → Neighbors
}.

(** [is_active: bool | ActiveWithNeighbors] *)
Inductive is_active_arg : Type :=
  | ActiveBool (b : bool)
  | ActiveNeighbors (n : Neighbors).

Record drawrect_call : Type := mkDrawrectCall {
  call_drawer : QRModuleDrawer;
  call_box : (Z * Z) * (Z * Z);
  call_is_active : is_active_arg
}.

Variable needs_neighbors : QRModuleDrawer → bool.

Definition drawrect_context (self : @BaseImageWithDrawer QRModuleDrawer)
    (row col : Z) (qr : QRCode) : outcome drawrect_call :=
  let box := pixel_box (base self) row col in
  let drawer :=
    if is_eye (base self) row col then eye_drawer self
    else module_drawer self in
  is_active ←
    (if needs_neighbors drawer
     then Return (ActiveNeighbors (active_with_neighbors qr row col))
     else (module_row ← py_getitem (qr_modules qr) row;
           point ← py_getitem module_row col;
           Return (ActiveBool point)));
  Return {| call_drawer := drawer;
            call_box := box;
            call_is_active := is_active |}.
End DrawContext.

Arguments QRCode : clear implicits.
Arguments is_active_arg : clear implicits.
Arguments drawrect_call : clear implicits.

(** *** [console_scripts]: [commas], [get_factory] and the factory
    selection of [main] *)

(** [sep.join(items)] *)
Fixpoint str_join (sep : string) (items : list string) : string :=
  match items with
  | [] => ""
  | [x] => x
  | x :: rest => x +:+ sep +:+ str_join sep rest
  end.

(** [commas(items, joiner="or")]; [items[:-1]] is all but the last item and
    [items[-1]] the last one. *)
Definition commas (items : list string) (joiner : string) : string :=
  match items with
  | [] => ""
  | [x] => x
  | _ =>
      str_join ", " (take (length items - 1) items)
      +:+ " " +:+ joiner +:+ " " +:+ default "" (last items)
  end.

(** ["." in s] *)
Fixpoint contains_dot (s : string) : bool :=
  match s with
  | EmptyString => false
  | String c rest => bool_decide (c = "."%char) || contains_dot rest
  end.

(** [s.rsplit(".", 1)]: the parts before and after the last dot, or [None]
    for the one-element list returned when [s] has no dot. A dot is one
    byte of no other character, so splitting bytes splits the text. *)
Fixpoint rsplit_dot (s : string) : option (string * string) :=
  match s with
  | EmptyString => None
  | String c rest =>
      match rsplit_dot rest with
      | Some (before, after) => Some (String c before, after)
      | None =>
          if bool_decide (c = "."%char) then Some (EmptyString, rest)
          else None
      end
  end.

Section Factories.
Context {Factory : Type}.

(** [getattr(__import__(module, {}, {}, [name]), name)]: the import
    machinery, outside this code. *)
Variable import_attr : string → string → outcome Factory.

(** [get_factory(module)] *)
Definition get_factory (module : string) : outcome Factory :=
  if negb (contains_dot module)
  then Throw (ValueError "The image factory is not a full python path")
  else
    match rsplit_dot module with
    | Some (module1, name) => import_attr module1 name
    | None =>
        Throw (ValueError "not enough values to unpack (expected 2, got 1)")
    end.

(** [default_factories] *)
Definition default_factories : gmap string string :=
  list_to_map
    [ ("pil", "qrcode.image.pil.PilImage");
      ("png", "qrcode.image.pure.PyPNGImage");
      ("svg", "qrcode.image.svg.SvgImage");
      ("svg-fragment", "qrcode.image.svg.SvgFragmentImage");
      ("svg-path", "qrcode.image.svg.SvgPathImage");
      ("pymaging", "qrcode.image.pure.PymagingImage") ].

(** [main]: [if opts.factory: module = default_factories.get(opts.factory,
    opts.factory); try get_factory(module) except ValueError as e:
    raise_error(str(e)); else: image_factory = None] *)
Definition main_image_factory (factory : option string)
    : outcome (option Factory) :=
  match factory with
  | None => Return None
  | Some f =>
      if decide (f = EmptyString) then Return None else
      let module := default f (default_factories !! f) in
      match get_factory module with
      | Return image_factory => Return (Some image_factory)
      | Throw (ValueError msg) => Throw (ParserExit msg)
      | Throw e => Throw e
      end
  end.
End Factories.

(** *** [generate_from_csv]: the pure steps

    A Python string is a sequence of characters; [str.isalnum] is a
    property of a character that the code does not define, so characters
    are kept abstract, with the four literal ones of ["._- "] and
    ["_"]. *)
Section Csv.
Context {char : Type} `{EqDecision char}.
Variable isalnum : char → bool.
Variables dot underscore dash space : char.

(** [c if c.isalnum() or c in "._- " else "_"] *)
Definition safe_char (c : char) : char :=
  if isalnum c || bool_decide (c ∈ [dot; underscore; dash; space])
  then c else underscore.

(** [safe_filename = "".join(... for c in part_number)] *)
Definition safe_filename (part_number : list char) : list char :=
  safe_char <$> part_number.

(** The reading loop: [if skip_header: next(reader, None)], then
    [for row in reader: if len(row) > column: values.append([row[column]])].
    [reader] is the list of parsed rows; an exception leaves the loop and
    is reported by the enclosing [except Exception]. *)
Fixpoint csv_collect {cell : Type} (reader : list (list cell)) (column : Z)
    : outcome (list (list cell)) :=
  match reader with
  | [] => Return []
  | row :: reader' =>
      if decide (Z.of_nat (length row) > column) then
        x ← py_getitem row column;
        values ← csv_collect reader' column;
        Return ([x] :: values)
      else csv_collect reader' column
  end.

Definition csv_values {cell : Type} (reader : list (list cell)) (column : Z)
    (skip_header : bool) : outcome (list (list cell)) :=
  csv_collect (if skip_header then drop 1 reader else reader) column.
End Csv.

(** The pixel at column [px] of row [py] of a sequence of rows *)
Definition pixel_at (rows : list Row) (px py : Z) : option Z :=
  if decide (0 ≤ px ∧ 0 ≤ py)
  then row ← rows !! Z.to_nat py; row !! Z.to_nat px
  else None.

(** Dark pixels of a sequence of rows; dark modules of a matrix *)
Definition total_dark_pixels (rows : list Row) : nat :=
  sum_list (dark_pixels <$> rows).
Definition total_dark_modules (mods : Modules) : nat :=
  sum_list (dark_modules <$> mods).

(** What a drawer argument stands for: the instance itself, the instance
    built from a registered alias, or a new default drawer for [None]. *)
Definition resolved {QRModuleDrawer Kwargs : Type}
    (drawer_aliases : DrawerAliases QRModuleDrawer Kwargs)
    (default_drawer_class : unit → QRModuleDrawer)
    (drawer : drawer_arg QRModuleDrawer) : option QRModuleDrawer :=
  match drawer with
  | DrawerNone => Some (default_drawer_class ())
  | DrawerObj d => Some d
  | DrawerStr name =>
      (λ entry : (Kwargs → QRModuleDrawer) * Kwargs, entry.1 entry.2)
        <$> drawer_aliases !! name
  end.

(** * Geometry *)

Lemma size_request_auto : size_request None = 414.
Proof. reflexivity. Qed.

Lemma floordiv_ok a b : b ≠ 0 → floordiv a b = Ok (a / b).
Proof. intros Hb. unfold floordiv. by case_decide. Qed.

Lemma floordiv_zero a : floordiv a 0 = Raise ZeroDivisionError.
Proof. reflexivity. Qed.

(** Every attribute of a constructed image, from the arguments. *)
Lemma init_Ok_inv b w bs qs mods g :
  init b w bs qs mods = Ok g →
  w + b * 2 ≠ 0
  ∧ border g = b ∧ width g = w
  ∧ pixel_width g = 576 ∧ pixel_height g = 864
  ∧ text_area_height g = 240 ∧ text_gap g = 42
  ∧ box_size g = Z.max 1 (size_request qs / (w + b * 2))
  ∧ pixel_size g = (w + b * 2) * box_size g
  ∧ qr_offset_x g = (576 - pixel_size g) / 2
  ∧ qr_offset_y g = (864 - (pixel_size g + 42 + 240)) / 2
  ∧ text_offset_y g = qr_offset_y g + pixel_size g + 42
  ∧ modules g = mods.
Proof.
  unfold init, floordiv. intros H.
  destruct (decide (w + b * 2 = 0)) as [Hz|Hz].
  - destruct qs; simpl in H; discriminate.
  - destruct qs; simpl in H; injection H as <-; simpl; repeat split; done.
Qed.

Lemma init_succeeds b w bs qs mods :
  w + b * 2 ≠ 0 → ∃ g, init b w bs qs mods = Ok g.
Proof.
  intros Hz. unfold init, floordiv.
  destruct (decide (w + b * 2 = 0)); [done|].
  destruct qs; simpl; eauto.
Qed.

Lemma init_zero_modules b w bs qs mods :
  w + b * 2 = 0 → init b w bs qs mods = Raise ZeroDivisionError.
Proof.
  intros Hz. unfold init, floordiv.
  destruct (decide (w + b * 2 = 0)); [|done].
  by destruct qs.
Qed.

(** C2: for every construction with border >= 0 and width >= 1, with or
    without a requested pixel size, the constructor returns an image that
    keeps the given border and width, whose box_size is the floor quotient
    of the request (qr_size, or the auto-fit bound 414) by the module count
    width + 2*border, clamped below by 1, and whose pixel_size is the
    product (width + 2*border) * box_size recomputed from that box_size,
    exactly. *)
Theorem C2_pixel_size_exact b w bs qs mods :
  0 ≤ b → 1 ≤ w →
  ∃ g, init b w bs qs mods = Ok g
       ∧ border g = b ∧ width g = w
       ∧ box_size g = Z.max 1 (size_request qs / (w + 2 * b))
       ∧ 1 ≤ box_size g
       ∧ pixel_size g = (w + 2 * b) * box_size g
       ∧ pixel_size g = (width g + 2 * border g) * box_size g.
Proof.
  intros Hb Hw.
  destruct (init_succeeds b w bs qs mods) as [g Hg]; [lia|].
  exists g. split; [done|].
  apply init_Ok_inv in Hg as (_ & Eb & Ew & _ & _ & _ & _ & Hbs & Hps & _).
  rewrite Eb, Ew.
  replace (w + 2 * b) with (w + b * 2) by lia.
  split; [done|]. split; [done|]. split; [done|]. split; [lia|]. done.
Qed.

Lemma C2_pixel_size_exact_witness :
  ∃ g, init 4 21 2 (Some 100) [] = Ok g
       ∧ border g = 4 ∧ width g = 21
       ∧ box_size g = Z.max 1 (size_request (Some 100) / (21 + 2 * 4))
       ∧ 1 ≤ box_size g
       ∧ pixel_size g = (21 + 2 * 4) * box_size g
       ∧ pixel_size g = (width g + 2 * border g) * box_size g.
Proof. apply (C2_pixel_size_exact 4 21 2 (Some 100) []); lia. Defined.

(** C3: with a target pixel size t and a non-zero module count
    m = width + 2*border, construction succeeds with
    box_size = max(1, t // m) and pixel_size = m * box_size; a target
    below a positive module count gives box_size = 1 instead of a failure;
    target 100 with width 1 and border 0 gives box_size 100 and
    pixel_size 100. *)
Theorem C3_target_size b w bs t mods :
  w + 2 * b ≠ 0 →
  (∃ g, init b w bs (Some t) mods = Ok g
        ∧ box_size g = Z.max 1 (t / (w + 2 * b))
        ∧ pixel_size g = (w + 2 * b) * box_size g
        ∧ (0 < w + 2 * b → t < w + 2 * b →
           box_size g = 1 ∧ pixel_size g = w + 2 * b))
  ∧ (∃ g, init 0 1 bs (Some 100) mods = Ok g
          ∧ box_size g = 100 ∧ pixel_size g = 100).
Proof.
  intros Hm. split.
  - destruct (init_succeeds b w bs (Some t) mods) as [g Hg]; [lia|].
    exists g. split; [done|].
    apply init_Ok_inv in Hg as (_ & _ & _ & _ & _ & _ & _ & Hbs & Hps & _).
    simpl in Hbs. replace (w + b * 2) with (w + 2 * b) in * by lia.
    split; [done|]. split; [done|].
    intros Hpos Hlt.
    assert (t / (w + 2 * b) ≤ 0) as Hq.
    { destruct (Z_lt_le_dec t 0) as [Hneg|Hnn].
      - pose proof (Z.div_lt_upper_bound t (w + 2 * b) 0 Hpos). lia.
      - rewrite Z.div_small; lia. }
    assert (box_size g = 1) as H1 by lia.
    split; [done|]. rewrite Hps, H1. lia.
  - eexists. split; [reflexivity|]. done.
Qed.

Lemma C3_target_size_witness :
  (∃ g, init 4 21 2 (Some 20) [] = Ok g
        ∧ box_size g = Z.max 1 (20 / (21 + 2 * 4))
        ∧ pixel_size g = (21 + 2 * 4) * box_size g
        ∧ (0 < 21 + 2 * 4 → 20 < 21 + 2 * 4 →
           box_size g = 1 ∧ pixel_size g = 21 + 2 * 4))
  ∧ (∃ g, init 0 1 2 (Some 100) [] = Ok g
          ∧ box_size g = 100 ∧ pixel_size g = 100).
Proof. apply (C3_target_size 4 21 2 20 []). lia. Defined.

(** C4 as stated fails: with width 21, border 4 and box_size argument 2 the
    constructed pixel_size is 406, not 58. *)
Lemma C4_box_size_two_counterexample :
  ∃ g, init 4 21 2 None (replicate 21 (replicate 21 false)) = Ok g
       ∧ pixel_size g = 406 ∧ pixel_size g ≠ 58.
Proof. eexists. split; [reflexivity|]. split; [reflexivity|]. by vm_compute. Qed.

(** C5 as stated fails: width 0 with border 4 constructs a full geometry
    instead of failing. *)
Lemma C5_nonpositive_width_counterexample :
  ∃ g, init 4 0 1 None [] = Ok g
       ∧ width g = 0 ∧ box_size g = 51 ∧ pixel_size g = 408
       ∧ qr_offset_x g = 84 ∧ qr_offset_y g = 87.
Proof. eexists. split; [reflexivity|]. repeat split. Qed.

(** C5, amended: construction does not reject width <= 0. It fails only
    when width + 2*border = 0, with the ZeroDivisionError of the floor
    division and without returning any geometry; for every other
    width <= 0 it succeeds and returns a complete geometry, with that
    width, box_size >= 1 and pixel_size = (width + 2*border) * box_size. *)
Theorem C5_nonpositive_width b w bs qs mods :
  w ≤ 0 →
  (w + 2 * b = 0 → init b w bs qs mods = Raise ZeroDivisionError)
  ∧ (w + 2 * b ≠ 0 →
     ∃ g, init b w bs qs mods = Ok g
          ∧ width g = w ∧ 1 ≤ box_size g
          ∧ pixel_size g = (w + 2 * b) * box_size g).
Proof.
  intros _. split; intros Hm.
  - apply init_zero_modules. lia.
  - destruct (init_succeeds b w bs qs mods) as [g Hg]; [lia|].
    exists g. split; [done|].
    apply init_Ok_inv in Hg as (_ & _ & -> & _ & _ & _ & _ & Hbs & Hps & _).
    replace (w + b * 2) with (w + 2 * b) in * by lia.
    repeat split; [lia | done].
Qed.

Lemma C5_nonpositive_width_witness :
  (-8 + 2 * 4 = 0 → init 4 (-8) 1 None [] = Raise ZeroDivisionError)
  ∧ (-8 + 2 * 4 ≠ 0 →
     ∃ g, init 4 (-8) 1 None [] = Ok g
          ∧ width g = -8 ∧ 1 ≤ box_size g
          ∧ pixel_size g = (-8 + 2 * 4) * box_size g).
Proof. apply (C5_nonpositive_width 4 (-8) 1 None []). lia. Defined.

(** C10: two constructions that differ only in the box_size argument give
    the same result, hence the same box_size, pixel_size, qr_offset_x,
    qr_offset_y, text_offset_y, pixel_width and pixel_height. *)
Theorem C10_box_size_argument_ignored (b w bs1 bs2 : Z) (qs : option Z)
    (mods : Modules) :
  init b w bs1 qs mods = init b w bs2 qs mods.
Proof. reflexivity. Qed.

(** * The eye predicate *)

(** C8: is_eye(row, col) is true exactly when (row < 7 and col < 7) or
    (row < 7 and width - col < 8) or (width - row < 8 and col < 7); it
    depends on nothing but the width, the row and the column; in a 21x21
    grid it is true on the three 7x7 finder corners, only there, and false
    at the centre module (10, 10). *)
Theorem C8_is_eye (self : BaseImage) (row col : Z) :
  (is_eye self row col = true ↔
     (row < 7 ∧ col < 7)
     ∨ (row < 7 ∧ width self - col < 8)
     ∨ (width self - row < 8 ∧ col < 7))
  ∧ (∀ other, width other = width self →
       is_eye other row col = is_eye self row col)
  ∧ (width self = 21 →
       is_eye self 0 0 = true
       ∧ is_eye self 0 20 = true
       ∧ is_eye self 20 0 = true
       ∧ is_eye self 10 10 = false
       ∧ (0 ≤ row < 21 → 0 ≤ col < 21 →
          (is_eye self row col = true ↔
             (row < 7 ∧ col < 7) ∨ (row < 7 ∧ 14 ≤ col)
             ∨ (14 ≤ row ∧ col < 7)))).
Proof.
  assert (∀ r c, is_eye self r c = true ↔
     (r < 7 ∧ c < 7) ∨ (r < 7 ∧ width self - c < 8)
     ∨ (width self - r < 8 ∧ c < 7)) as Hspec.
  { intros r c. unfold is_eye.
    rewrite !orb_true_iff, !andb_true_iff, !bool_decide_eq_true. tauto. }
  split; [apply Hspec|]. split.
  - intros other Hw. unfold is_eye. by rewrite Hw.
  - intros Hw. repeat split; try (apply Hspec; lia).
    + apply not_true_is_false. rewrite Hspec. lia.
    + rewrite Hspec. lia.
    + rewrite Hspec. lia.
Qed.

Lemma C8_is_eye_witness :
  let self := mkBaseImage 4 21 576 864 240 42 406 14 85 88 536 [] in
  (is_eye self 3 17 = true ↔
     (3 < 7 ∧ 17 < 7) ∨ (3 < 7 ∧ width self - 17 < 8)
     ∨ (width self - 3 < 8 ∧ 17 < 7))
  ∧ (∀ other, width other = width self →
       is_eye other 3 17 = is_eye self 3 17)
  ∧ is_eye self 0 0 = true
  ∧ is_eye self 0 20 = true
  ∧ is_eye self 20 0 = true
  ∧ is_eye self 10 10 = false
  ∧ (is_eye self 3 17 = true ↔
       (3 < 7 ∧ 17 < 7) ∨ (3 < 7 ∧ 14 ≤ 17) ∨ (14 ≤ 3 ∧ 17 < 7)).
Proof.
  intros self.
  destruct (C8_is_eye self 3 17) as (Hspec & Hpure & Hgrid).
  destruct Hgrid as (H00 & H020 & H200 & Hmid & Hin); [reflexivity|].
  split; [exact Hspec|]. split; [exact Hpure|].
  split; [exact H00|]. split; [exact H020|]. split; [exact H200|].
  split; [exact Hmid|]. apply Hin; lia.
Defined.

(** * Pixel boxes *)

Lemma in_box_pixel_box self row col px py :
  in_box (pixel_box self row col) px py ↔
    (col + border self) * box_size self + qr_offset_x self ≤ px
      ≤ (col + border self) * box_size self + qr_offset_x self
        + box_size self - 1
    ∧ (row + border self) * box_size self + qr_offset_y self ≤ py
      ≤ (row + border self) * box_size self + qr_offset_y self
        + box_size self - 1.
Proof. reflexivity. Qed.

(** Two intervals of [s] consecutive integers that start at multiples of
    [s] and share a point start at the same multiple. *)
Lemma stride_interval_inj (s a b o p : Z) :
  a * s + o ≤ p ≤ a * s + o + s - 1 →
  b * s + o ≤ p ≤ b * s + o + s - 1 →
  a = b.
Proof.
  intros Ha Hb.
  destruct (Z.lt_trichotomy a b) as [Hlt|[Heq|Hgt]]; [|done|].
  - assert (0 < s) by lia. assert ((a + 1) * s ≤ b * s) by nia. lia.
  - assert (0 < s) by lia. assert ((b + 1) * s ≤ a * s) by nia. lia.
Qed.

(** A point of a run of [n] intervals of length [s] lies in one of them. *)
Lemma stride_interval_cover (s n lo p : Z) :
  1 ≤ s → lo ≤ p < lo + n * s →
  ∃ k, 0 ≤ k < n ∧ k * s + lo ≤ p ≤ k * s + lo + s - 1.
Proof.
  intros Hs Hp. exists ((p - lo) / s).
  pose proof (Z.div_mod (p - lo) s ltac:(lia)) as Hdm.
  pose proof (Z.mod_pos_bound (p - lo) s ltac:(lia)) as Hmod.
  assert (0 ≤ (p - lo) / s) by (apply Z.div_pos; lia).
  assert ((p - lo) / s < n) by (apply Z.div_lt_upper_bound; lia).
  split; [lia|]. nia.
Qed.

(** C6: pixel_box(row, col) is ((x, y), (x + box_size - 1, y + box_size - 1))
    with x = (col + border) * box_size + qr_offset_x and
    y = (row + border) * box_size + qr_offset_y; with box_size >= 1 the
    inclusive boxes of two distinct cells share no pixel, and a pixel lies
    in the interior data region exactly when it lies in the box of some
    cell of the width x width grid, so the boxes tile that region. *)
Theorem C6_pixel_box_tiling (self : BaseImage) :
  1 ≤ box_size self →
  (∀ row col,
     let x := (col + border self) * box_size self + qr_offset_x self in
     let y := (row + border self) * box_size self + qr_offset_y self in
     pixel_box self row col
     = ((x, y), (x + box_size self - 1, y + box_size self - 1)))
  ∧ (∀ r1 c1 r2 c2 px py,
       (r1, c1) ≠ (r2, c2) →
       in_box (pixel_box self r1 c1) px py →
       ¬ in_box (pixel_box self r2 c2) px py)
  ∧ (∀ px py,
       in_data_region self px py ↔
       ∃ row col, 0 ≤ row < width self ∧ 0 ≤ col < width self
                  ∧ in_box (pixel_box self row col) px py).
Proof.
  intros Hbs. split; [done|]. split.
  - intros r1 c1 r2 c2 px py Hne H1 H2. apply Hne.
    apply in_box_pixel_box in H1 as [Hx1 Hy1].
    apply in_box_pixel_box in H2 as [Hx2 Hy2].
    pose proof (stride_interval_inj _ _ _ _ _ Hx1 Hx2).
    pose proof (stride_interval_inj _ _ _ _ _ Hy1 Hy2).
    f_equal; lia.
  - intros px py. unfold in_data_region. cbv zeta. split.
    + intros [Hx Hy].
      apply stride_interval_cover in Hx as (col & Hcol & Hx); [|done].
      apply stride_interval_cover in Hy as (row & Hrow & Hy); [|done].
      exists row, col. split; [done|]. split; [done|].
      apply in_box_pixel_box. lia.
    + intros (row & col & Hrow & Hcol & Hin).
      apply in_box_pixel_box in Hin as [Hx Hy]. simpl in Hx, Hy.
      assert (row * box_size self + box_size self
              ≤ width self * box_size self) by nia.
      assert (col * box_size self + box_size self
              ≤ width self * box_size self) by nia.
      assert (0 ≤ row * box_size self) by nia.
      assert (0 ≤ col * box_size self) by nia.
      lia.
Qed.

Lemma C6_pixel_box_tiling_witness :
  let self := mkBaseImage 4 21 576 864 240 42 406 14 85 88 536 [] in
  pixel_box self 0 0 = ((141, 144), (154, 157))
  ∧ ¬ in_box (pixel_box self 0 1) 154 157
  ∧ (in_data_region self 300 300 ↔
     ∃ row col, 0 ≤ row < width self ∧ 0 ≤ col < width self
                ∧ in_box (pixel_box self row col) 300 300).
Proof.
  intros self.
  destruct (C6_pixel_box_tiling self) as (Hbox & Hdisj & Htile);
    [simpl; lia|].
  split; [apply Hbox|]. split; [|apply Htile].
  apply (Hdisj 0 0 0 1); [discriminate|].
  apply in_box_pixel_box. simpl. lia.
Defined.

(** * The streaming backend *)

Section Streaming.
Implicit Types (self : BaseImage) (row : Row) (module_row : list bool).

Lemma length_list_mul {A} (v : A) n : length (list_mul v n) = Z.to_nat n.
Proof. apply length_replicate. Qed.

Lemma length_yield_times {A} n (v : A) :
  length (yield_times n v) = Z.to_nat n.
Proof. apply length_replicate. Qed.

Lemma length_bind_replicate {A B} (f : A → B) (n : nat) (l : list A) :
  length (l ≫= λ x, replicate n (f x)) = (length l * n)%nat.
Proof.
  induction l as [|x l IH]; [done|].
  rewrite bind_cons, length_app, length_replicate, IH. simpl. lia.
Qed.

Lemma lookup_bind_replicate {A B} (f : A → B) (n : nat) (l : list A) r k x :
  l !! r = Some x → (k < n)%nat →
  (l ≫= λ x, replicate n (f x)) !! (r * n + k)%nat = Some (f x).
Proof.
  revert r. induction l as [|y l IH]; intros r Hr Hk; [done|].
  rewrite bind_cons. destruct r as [|r]; simpl in Hr.
  - injection Hr as ->. rewrite lookup_app_l by (rewrite length_replicate; lia).
    by apply lookup_replicate_2.
  - rewrite lookup_app_r by (rewrite length_replicate; lia).
    rewrite length_replicate.
    replace (S r * n + k - n)%nat with (r * n + k)%nat by lia.
    by apply IH.
Qed.

Lemma Forall_bind_replicate {A B} (P : B → Prop) (f : A → B) (n : nat)
    (l : list A) :
  (∀ x, x ∈ l → P (f x)) → Forall P (l ≫= λ x, replicate n (f x)).
Proof.
  intros H. apply Forall_bind, Forall_forall. intros x Hx.
  apply Forall_replicate. auto.
Qed.

(** ** Shape: number of rows and row lengths *)




Lemma length_border_rows_iter self :
  length (border_rows_iter self) = Z.to_nat (border self * box_size self).
Proof. apply length_yield_times. Qed.


Lemma length_rows_iter self :
  length (rows_iter self)
  = (Z.to_nat (qr_offset_y self)
     + Z.to_nat (border self * box_size self)
     + length (modules self) * Z.to_nat (box_size self)
     + Z.to_nat (border self * box_size self)
     + Z.to_nat (pixel_height self - qr_offset_y self - pixel_size self))%nat.
Proof.
  unfold rows_iter. cbv zeta.
  rewrite !length_app, !length_yield_times, !length_border_rows_iter.
  unfold yield_times. rewrite length_bind_replicate. lia.
Qed.

(** The image of a constructed geometry whose symbol is no wider than the
    canvas: offsets and remainders are non-negative and add up. *)
Lemma fitting_geometry b w bs qs mods g :
  init b w bs qs mods = Ok g → 0 ≤ b → 1 ≤ w →
  pixel_size g ≤ pixel_width g →
  1 ≤ box_size g
  ∧ 0 ≤ qr_offset_x g ∧ 0 ≤ qr_offset_y g
  ∧ 0 ≤ pixel_width g - qr_offset_x g - pixel_size g
  ∧ 0 ≤ pixel_height g - qr_offset_y g - pixel_size g
  ∧ 0 ≤ border g * box_size g
  ∧ 0 ≤ width g * box_size g
  ∧ pixel_size g
    = border g * box_size g + width g * box_size g + border g * box_size g.
Proof.
  intros Hg Hb Hw Hfit.
  apply init_Ok_inv in Hg
    as (_ & -> & -> & Hpw & Hph & _ & _ & Hbs & Hps & Hox & Hoy & _).
  rewrite Hpw in *. rewrite Hph.
  assert (1 ≤ box_size g) as Hbs1 by lia.
  assert (0 ≤ b * box_size g) by nia.
  assert (0 ≤ w * box_size g) by nia.
  assert (pixel_size g = b * box_size g + w * box_size g + b * box_size g)
    as Hsum by lia.
  assert (0 ≤ pixel_size g) by lia.
  pose proof (Z.div_mod (576 - pixel_size g) 2 ltac:(lia)).
  pose proof (Z.mod_pos_bound (576 - pixel_size g) 2 ltac:(lia)).
  pose proof (Z.div_mod (864 - (pixel_size g + 42 + 240)) 2 ltac:(lia)).
  pose proof (Z.mod_pos_bound (864 - (pixel_size g + 42 + 240)) 2 ltac:(lia)).
  repeat split; lia.
Qed.
(** The pixel rows of module row [r], after the top filler rows and the
    top border rows. *)
Lemma lookup_rows_iter self r module_row k :
  modules self !! r = Some module_row →
  (k < Z.to_nat (box_size self))%nat →
  rows_iter self
    !! (Z.to_nat (qr_offset_y self) + Z.to_nat (border self * box_size self)
        + r * Z.to_nat (box_size self) + k)%nat
  = Some (full_row self module_row).
Proof.
  intros Hr Hk. unfold rows_iter.
  rewrite lookup_app_r by (rewrite length_yield_times; lia).
  rewrite lookup_app_r
    by (rewrite length_yield_times, length_border_rows_iter; lia).
  rewrite length_yield_times, length_border_rows_iter.
  match goal with |- _ !! ?i = _ =>
    replace i with (r * Z.to_nat (box_size self) + k)%nat by lia end.
  apply lookup_app_l_Some.
  by apply (lookup_bind_replicate (full_row self)).
Qed.

End Streaming.




(** C4, amended: with width 21, border 4 and box_size argument 2 the
    argument is ignored: auto-fit gives box_size 14 and
    pixel_size (21 + 8) * 14 = 406; a geometry whose box_size is 2, as
    given by qr_size = 58, has pixel_size (21 + 8) * 2 = 58; for either
    one the streaming backend yields exactly pixel_height = 864 rows. *)
Theorem C4_box_size_two (mods : Modules) :
  length mods = 21%nat →
  (∃ g, init 4 21 2 None mods = Ok g
        ∧ box_size g = 14 ∧ pixel_size g = (21 + 8) * 14
        ∧ pixel_height g = 864
        ∧ length (rows_iter g) = 864%nat)
  ∧ (∃ g, init 4 21 2 (Some 58) mods = Ok g
          ∧ box_size g = 2 ∧ pixel_size g = (21 + 8) * 2
          ∧ pixel_height g = 864
          ∧ length (rows_iter g) = 864%nat).
Proof.
  intros Hlen. split.
  - eexists. split; [reflexivity|]. repeat (split; [reflexivity|]).
    rewrite length_rows_iter. simpl modules. rewrite Hlen. by vm_compute.
  - eexists. split; [reflexivity|]. repeat (split; [reflexivity|]).
    rewrite length_rows_iter. simpl modules. rewrite Hlen. by vm_compute.
Qed.

Lemma C4_box_size_two_witness :
  (∃ g, init 4 21 2 None (replicate 21 (replicate 21 true)) = Ok g
        ∧ box_size g = 14 ∧ pixel_size g = (21 + 8) * 14
        ∧ pixel_height g = 864
        ∧ length (rows_iter g) = 864%nat)
  ∧ (∃ g, init 4 21 2 (Some 58) (replicate 21 (replicate 21 true)) = Ok g
          ∧ box_size g = 2 ∧ pixel_size g = (21 + 8) * 2
          ∧ pixel_height g = 864
          ∧ length (rows_iter g) = 864%nat).
Proof.
  apply (C4_box_size_two (replicate 21 (replicate 21 true))). reflexivity.
Defined.

(** ** Content: where the dark pixels are *)

Section StreamingContent.
Implicit Types (self : BaseImage) (row : Row) (module_row : list bool).

Lemma dark_pixels_app row1 row2 :
  dark_pixels (row1 ++ row2) = (dark_pixels row1 + dark_pixels row2)%nat.
Proof. unfold dark_pixels. by rewrite filter_app, length_app. Qed.

Lemma dark_pixels_replicate n (p : Pixel) :
  dark_pixels (replicate n p) = if decide (p = dark) then n else 0%nat.
Proof.
  unfold dark_pixels. induction n as [|n IH]; simpl.
  - by case_decide.
  - rewrite filter_cons. case_decide; simpl; by rewrite IH.
Qed.

Lemma dark_pixels_light n : dark_pixels (list_mul 1 n) = 0%nat.
Proof. unfold list_mul. by rewrite dark_pixels_replicate. Qed.

Lemma dark_pixels_expand n module_row :
  dark_pixels (module_row ≫= λ point, list_mul (py_not point) n)
  = (dark_modules module_row * Z.to_nat n)%nat.
Proof.
  unfold dark_modules, list_mul.
  induction module_row as [|point module_row IH]; [done|].
  rewrite bind_cons, dark_pixels_app, IH, dark_pixels_replicate, filter_cons.
  destruct point; simpl; lia.
Qed.

Lemma dark_pixels_full_row self module_row :
  dark_pixels (full_row self module_row)
  = (dark_modules module_row * Z.to_nat (box_size self))%nat.
Proof.
  unfold full_row, qr_row, left_padding, right_padding, border_col.
  rewrite !dark_pixels_app, !dark_pixels_light, dark_pixels_expand. lia.
Qed.

Lemma dark_pixels_canvas_row self : dark_pixels (canvas_row self) = 0%nat.
Proof. apply dark_pixels_light. Qed.

Lemma dark_pixels_border_rows self :
  Forall (λ row, dark_pixels row = 0%nat) (border_rows_iter self).
Proof.
  apply Forall_replicate. by rewrite !dark_pixels_app, !dark_pixels_light.
Qed.

Lemma dark_modules_all_light n : dark_modules (replicate n false) = 0%nat.
Proof. unfold dark_modules. induction n; [done|]. simpl. by rewrite filter_cons. Qed.

Lemma lookup_full_row self module_row (c : nat) (point : bool) (j : nat) :
  module_row !! c = Some point →
  (j < Z.to_nat (box_size self))%nat →
  full_row self module_row
    !! (Z.to_nat (qr_offset_x self) + Z.to_nat (box_size self * border self)
        + c * Z.to_nat (box_size self) + j)%nat
  = Some (if point then dark else light).
Proof.
  intros Hc Hj. unfold full_row, qr_row, left_padding, border_col.
  rewrite lookup_app_r by (rewrite length_list_mul; lia).
  rewrite length_list_mul. apply lookup_app_l_Some.
  rewrite lookup_app_r by (rewrite length_list_mul; lia).
  rewrite length_list_mul. apply lookup_app_l_Some.
  match goal with |- _ !! ?i = _ =>
    replace i with (c * Z.to_nat (box_size self) + j)%nat by lia end.
  unfold list_mul.
  rewrite (lookup_bind_replicate py_not _ _ _ _ _ Hc Hj).
  by destruct point.
Qed.
End StreamingContent.

(** C7: rows_iter emits each module row as box_size consecutive copies of
    one pixel row; in that row every module occupies box_size consecutive
    pixels, dark for a dark module and light for a light one, after the
    left padding and the left border columns; the row has exactly box_size
    dark pixels per dark module, so the paddings and border columns are
    light; border rows and filler rows have no dark pixel; and the
    all-light 3x3 matrix with border 0, whatever the box_size argument and
    the requested size, renders without any dark pixel. *)
Theorem C7_streaming_content (self : BaseImage) :
  (∀ r module_row k,
     modules self !! r = Some module_row →
     (k < Z.to_nat (box_size self))%nat →
     rows_iter self
       !! (Z.to_nat (qr_offset_y self) + Z.to_nat (border self * box_size self)
           + r * Z.to_nat (box_size self) + k)%nat
     = Some (full_row self module_row))
  ∧ (∀ (module_row : list bool) (c : nat) (point : bool) (j : nat),
       module_row !! c = Some point →
       (j < Z.to_nat (box_size self))%nat →
       full_row self module_row
         !! (Z.to_nat (qr_offset_x self)
             + Z.to_nat (box_size self * border self)
             + c * Z.to_nat (box_size self) + j)%nat
       = Some (if point then dark else light))
  ∧ (∀ module_row,
       dark_pixels (full_row self module_row)
       = (dark_modules module_row * Z.to_nat (box_size self))%nat)
  ∧ dark_pixels (left_padding self) = 0%nat
  ∧ dark_pixels (border_col self) = 0%nat
  ∧ dark_pixels (right_padding self) = 0%nat
  ∧ Forall (λ row, dark_pixels row = 0%nat) (border_rows_iter self)
  ∧ dark_pixels (canvas_row self) = 0%nat
  ∧ (∀ bs qs, ∃ g,
       init 0 3 bs qs (replicate 3 (replicate 3 false)) = Ok g
       ∧ Forall (λ row, dark_pixels row = 0%nat) (rows_iter g)
       ∧ (qs = Some 3 → box_size g = 1)).
Proof.
  split; [intros; by apply lookup_rows_iter|].
  split; [intros; by apply lookup_full_row|].
  split; [apply dark_pixels_full_row|].
  do 3 (split; [apply dark_pixels_light|]).
  split; [apply dark_pixels_border_rows|].
  split; [apply dark_pixels_canvas_row|].
  intros bs qs.
  destruct (init_succeeds 0 3 bs qs (replicate 3 (replicate 3 false)))
    as [g Hg]; [lia|].
  exists g. split; [done|].
  apply init_Ok_inv in Hg
    as (_ & _ & _ & _ & _ & _ & _ & Hbs & _ & _ & _ & _ & Hmods).
  split; [|by intros ->].
  unfold rows_iter. cbv zeta. rewrite !Forall_app.
  split; [apply Forall_replicate, dark_pixels_canvas_row|].
  split; [apply dark_pixels_border_rows|].
  split; [|split; [apply dark_pixels_border_rows
                  |apply Forall_replicate, dark_pixels_canvas_row]].
  rewrite Hmods. apply Forall_bind_replicate. intros module_row Hin.
  apply elem_of_replicate_inv in Hin as ->.
  by rewrite dark_pixels_full_row, dark_modules_all_light.
Qed.

Lemma C7_streaming_content_witness :
  ∃ g, init 0 3 1 (Some 3) [[false; true; false]; [true; true; true];
                              [false; false; true]] = Ok g
       ∧ rows_iter g !! 290%nat = Some (full_row g [true; true; true])
       ∧ full_row g [false; true; false] !! 287%nat = Some dark
       ∧ full_row g [false; true; false] !! 288%nat = Some light.
Proof.
  eexists. split; [reflexivity|].
  match goal with |- context [full_row ?g _] =>
    destruct (C7_streaming_content g) as (Hrow & Hpix & _) end.
  split; [|split].
  - apply (Hrow 1%nat [true; true; true] 0%nat); [reflexivity | simpl; lia].
  - apply (Hpix [false; true; false] 1%nat true 0%nat); [reflexivity | simpl; lia].
  - apply (Hpix [false; true; false] 2%nat false 0%nat); [reflexivity | simpl; lia].
Defined.

(** * Drawer aliases *)

Section DrawerResolution.
Context {QRModuleDrawer Kwargs : Type}.
Variable drawer_aliases : DrawerAliases QRModuleDrawer Kwargs.
Variable default_drawer_class : unit → QRModuleDrawer.

Lemma get_drawer_unknown name :
  drawer_aliases !! name = None →
  get_drawer drawer_aliases (DrawerStr name) = Raise (KeyError name).
Proof. intros H. unfold get_drawer. by rewrite H. Qed.

Lemma get_drawer_known name drawer_cls kwargs :
  drawer_aliases !! name = Some (drawer_cls, kwargs) →
  get_drawer drawer_aliases (DrawerStr name) = Ok (Some (drawer_cls kwargs)).
Proof. intros H. unfold get_drawer. by rewrite H. Qed.

(** C9: an alias name that is not a key of drawer_aliases makes
    get_drawer fail with the typed unknown-alias error (Python's KeyError
    carrying the name), and the constructor fails with it whatever the
    geometry arguments are, for the module drawer and for the eye drawer,
    so before any geometry is computed or pixel drawn; the command-line
    selection fails too. A name that is a key resolves to the registered
    constructor applied to the registered default arguments, and the
    constructed image carries that drawer. *)
Theorem C9_drawer_alias (name : string) :
  (drawer_aliases !! name = None →
     get_drawer drawer_aliases (DrawerStr name) = Raise (KeyError name)
     ∧ (∀ ed b w bs qs mods,
          init_with_drawer drawer_aliases default_drawer_class
            (DrawerStr name) ed b w bs qs mods
          = Raise (KeyError name))
     ∧ (∀ md d b w bs qs mods,
          get_drawer drawer_aliases md = Ok d →
          init_with_drawer drawer_aliases default_drawer_class
            md (DrawerStr name) b w bs qs mods
          = Raise (KeyError name))
     ∧ (name ≠ EmptyString →
        ∃ msg, main_factory_drawer (Some drawer_aliases) (Some name)
               = Raise (ParserError msg)))
  ∧ (∀ drawer_cls kwargs,
       drawer_aliases !! name = Some (drawer_cls, kwargs) →
       get_drawer drawer_aliases (DrawerStr name)
       = Ok (Some (drawer_cls kwargs))
       ∧ (∀ b w bs qs mods g,
            init b w bs qs mods = Ok g →
            init_with_drawer drawer_aliases default_drawer_class
              (DrawerStr name) DrawerNone b w bs qs mods
            = Ok {| module_drawer := drawer_cls kwargs;
                    eye_drawer := default_drawer_class ();
                    base := g |})
       ∧ (name ≠ EmptyString →
          main_factory_drawer (Some drawer_aliases) (Some name)
          = Ok (Some (drawer_cls kwargs)))).
Proof.
  split.
  - intros Hnone. split; [by apply get_drawer_unknown|].
    split; [|split].
    + intros. unfold init_with_drawer.
      by rewrite get_drawer_unknown.
    + intros md d b w bs qs mods Hmd. unfold init_with_drawer.
      rewrite Hmd. cbn -[get_drawer]. by rewrite get_drawer_unknown.
    + intros Hne. unfold main_factory_drawer.
      destruct (decide (name = EmptyString)); [done|].
      destruct (decide (drawer_aliases = ∅)); [by eexists|].
      rewrite Hnone. by eexists.
  - intros drawer_cls kwargs Hsome.
    split; [by apply get_drawer_known|]. split.
    + intros b w bs qs mods g Hg. unfold init_with_drawer.
      rewrite (get_drawer_known _ _ _ Hsome). cbn -[init]. by rewrite Hg.
    + intros Hne. unfold main_factory_drawer.
      destruct (decide (name = EmptyString)); [done|].
      destruct (decide (drawer_aliases = ∅)) as [Hempty|_].
      * rewrite Hempty, lookup_empty in Hsome. discriminate.
      * by rewrite Hsome.
Qed.
End DrawerResolution.

Lemma C9_drawer_alias_witness :
  let aliases : DrawerAliases string Z :=
    {[ "circle" := ((λ _, "CircleModuleDrawer"), 0) ]} in
  get_drawer aliases (DrawerStr "star") = Raise (KeyError "star")
  ∧ init_with_drawer aliases (λ _, "SquareModuleDrawer")
      (DrawerStr "star") DrawerNone 0 0 1 None []
    = Raise (KeyError "star")
  ∧ get_drawer aliases (DrawerStr "circle") = Ok (Some "CircleModuleDrawer").
Proof.
  intros aliases.
  destruct (C9_drawer_alias aliases (λ _, "SquareModuleDrawer") "star")
    as [Hmissing _].
  destruct (C9_drawer_alias aliases (λ _, "SquareModuleDrawer") "circle")
    as [_ Hpresent].
  destruct Hmissing as (Hget & Hinit & _); [reflexivity|].
  destruct (Hpresent (λ _, "CircleModuleDrawer") 0) as (Hok & _);
    [reflexivity|].
  split; [exact Hget|]. split; [apply Hinit | exact Hok].
Defined.


(** * Further properties of the geometry *)

(** X1: every constructed geometry is centred by floor division: the right
    margin of the symbol equals the left margin or exceeds it by one pixel,
    and so does the margin below the text area against the margin above the
    symbol. This holds for negative margins too. *)
Theorem X1_centering b w bs qs mods :
  w + 2 * b ≠ 0 →
  ∃ g, init b w bs qs mods = Ok g
       ∧ 0 ≤ (pixel_width g - qr_offset_x g - pixel_size g) - qr_offset_x g ≤ 1
       ∧ 0 ≤ (pixel_height g - (text_offset_y g + text_area_height g))
             - qr_offset_y g ≤ 1.
Proof.
  intros Hm. destruct (init_succeeds b w bs qs mods) as [g Hg]; [lia|].
  exists g. split; [done|].
  apply init_Ok_inv in Hg
    as (_ & _ & _ & -> & -> & -> & _ & _ & _ & Hox & Hoy & -> & _).
  rewrite Hox, Hoy.
  pose proof (Z.div_mod (576 - pixel_size g) 2 ltac:(lia)).
  pose proof (Z.mod_pos_bound (576 - pixel_size g) 2 ltac:(lia)).
  pose proof (Z.div_mod (864 - (pixel_size g + 42 + 240)) 2 ltac:(lia)).
  pose proof (Z.mod_pos_bound (864 - (pixel_size g + 42 + 240)) 2 ltac:(lia)).
  lia.
Qed.

Lemma X1_centering_witness :
  ∃ g, init 4 21 2 (Some 1000) [] = Ok g
       ∧ 0 ≤ (pixel_width g - qr_offset_x g - pixel_size g) - qr_offset_x g ≤ 1
       ∧ 0 ≤ (pixel_height g - (text_offset_y g + text_area_height g))
             - qr_offset_y g ≤ 1.
Proof. apply (X1_centering 4 21 2 (Some 1000) []). lia. Defined.

(** X2: when the request (qr_size, or 414 for auto-fit) is at least the
    module count m = width + 2*border >= 1, box_size is the largest integer
    k with m * k <= request: m * box_size does not exceed the request, no
    larger k fits, and pixel_size = m * box_size is never larger than asked
    for and falls short by less than m pixels. *)
Theorem X2_largest_box_size b w bs qs mods :
  1 ≤ w + 2 * b → w + 2 * b ≤ size_request qs →
  ∃ g, init b w bs qs mods = Ok g
       ∧ 1 ≤ box_size g
       ∧ (w + 2 * b) * box_size g ≤ size_request qs
       ∧ (∀ k, (w + 2 * b) * k ≤ size_request qs → k ≤ box_size g)
       ∧ pixel_size g = (w + 2 * b) * box_size g
       ∧ pixel_size g ≤ size_request qs < pixel_size g + (w + 2 * b).
Proof.
  intros Hm Hreq. destruct (init_succeeds b w bs qs mods) as [g Hg]; [lia|].
  exists g. split; [done|].
  apply init_Ok_inv in Hg as (_ & _ & _ & _ & _ & _ & _ & Hbs & Hps & _).
  replace (w + b * 2) with (w + 2 * b) in * by lia.
  set (m := w + 2 * b) in *. set (q := size_request qs) in *.
  pose proof (Z.div_mod q m ltac:(lia)) as Hdm.
  pose proof (Z.mod_pos_bound q m ltac:(lia)) as Hmod.
  assert (1 ≤ q / m) by (apply Z.div_le_lower_bound; lia).
  assert (box_size g = q / m) as Hq by lia.
  rewrite Hps, Hq. split; [lia|]. split; [lia|]. split.
  - intros k Hk. apply Z.div_le_lower_bound; lia.
  - split; [done | lia].
Qed.

Lemma X2_largest_box_size_witness :
  ∃ g, init 4 21 2 (Some 100) [] = Ok g
       ∧ 1 ≤ box_size g
       ∧ (21 + 2 * 4) * box_size g ≤ size_request (Some 100)
       ∧ (∀ k, (21 + 2 * 4) * k ≤ size_request (Some 100) → k ≤ box_size g)
       ∧ pixel_size g = (21 + 2 * 4) * box_size g
       ∧ pixel_size g ≤ size_request (Some 100) < pixel_size g + (21 + 2 * 4).
Proof. apply (X2_largest_box_size 4 21 2 (Some 100) []); simpl; lia. Defined.

(** X3: when both the module count m = width + 2*border >= 1 and the
    request (qr_size, or 414 for auto-fit) are at most the canvas width
    576, the whole layout lies on the canvas: the symbol is no wider than
    the canvas, both offsets are non-negative, and the text area starts
    text_gap below the symbol and ends inside the canvas height. Auto-fit
    with m <= 414 moreover keeps a margin of at least 81 pixels left and
    84 pixels above. *)
Theorem X3_layout_on_canvas b w bs qs mods :
  1 ≤ w + 2 * b → w + 2 * b ≤ 576 → size_request qs ≤ 576 →
  ∃ g, init b w bs qs mods = Ok g
       ∧ pixel_size g ≤ pixel_width g
       ∧ 0 ≤ qr_offset_x g ∧ 0 ≤ qr_offset_y g
       ∧ text_offset_y g = qr_offset_y g + pixel_size g + text_gap g
       ∧ text_offset_y g + text_area_height g ≤ pixel_height g
       ∧ (qs = None → w + 2 * b ≤ 414 →
          81 ≤ qr_offset_x g ∧ 84 ≤ qr_offset_y g).
Proof.
  intros Hm Hm576 Hreq.
  destruct (init_succeeds b w bs qs mods) as [g Hg]; [lia|].
  exists g. split; [done|].
  apply init_Ok_inv in Hg
    as (_ & _ & _ & -> & -> & -> & -> & Hbs & Hps & Hox & Hoy & -> & _).
  replace (w + b * 2) with (w + 2 * b) in * by lia.
  set (m := w + 2 * b) in *. set (q := size_request qs) in *.
  assert (0 ≤ pixel_size g) as Hps0 by nia.
  assert (pixel_size g ≤ Z.max m q) as Hle.
  { destruct (Z_lt_le_dec q m) as [Hlt|Hge].
    - assert (q / m ≤ 0).
      { destruct (Z_lt_le_dec q 0).
        - pose proof (Z.div_lt_upper_bound q m 0 ltac:(lia)). lia.
        - rewrite Z.div_small; lia. }
      assert (box_size g = 1) by lia. nia.
    - pose proof (Z.mul_div_le q m ltac:(lia)).
      assert (1 ≤ q / m) by (apply Z.div_le_lower_bound; lia).
      assert (box_size g = q / m) as Hq by lia.
      rewrite Hps, Hq. lia. }
  pose proof (Z.div_mod (576 - pixel_size g) 2 ltac:(lia)).
  pose proof (Z.mod_pos_bound (576 - pixel_size g) 2 ltac:(lia)).
  pose proof (Z.div_mod (864 - (pixel_size g + 42 + 240)) 2 ltac:(lia)).
  pose proof (Z.mod_pos_bound (864 - (pixel_size g + 42 + 240)) 2 ltac:(lia)).
  do 5 (split; [lia|]).
  intros -> Hm414. subst q. rewrite size_request_auto in *.
  assert (pixel_size g ≤ 414) by lia. lia.
Qed.

Lemma X3_layout_on_canvas_witness :
  ∃ g, init 4 21 2 None [] = Ok g
       ∧ pixel_size g ≤ pixel_width g
       ∧ 0 ≤ qr_offset_x g ∧ 0 ≤ qr_offset_y g
       ∧ text_offset_y g = qr_offset_y g + pixel_size g + text_gap g
       ∧ text_offset_y g + text_area_height g ≤ pixel_height g
       ∧ (@None Z = None → 21 + 2 * 4 ≤ 414 →
          81 ≤ qr_offset_x g ∧ 84 ≤ qr_offset_y g).
Proof.
  apply (X3_layout_on_canvas 4 21 2 None []);
    [lia | lia | rewrite size_request_auto; lia].
Defined.

(** X4: in a constructed geometry with border >= 0 whose symbol is no wider
    than the canvas, the pixel box of every cell of the grid lies on the
    canvas, inside the symbol's data region, and entirely above the text
    area. *)
Theorem X4_pixel_box_on_canvas b w bs qs mods g row col :
  init b w bs qs mods = Ok g → 0 ≤ b →
  pixel_size g ≤ pixel_width g →
  0 ≤ row < w → 0 ≤ col < w →
  let '((x0, y0), (x1, y1)) := pixel_box g row col in
  0 ≤ x0 ≤ x1 ∧ x1 < pixel_width g
  ∧ 0 ≤ y0 ≤ y1 ∧ y1 < text_offset_y g - text_gap g
  ∧ text_offset_y g + text_area_height g ≤ pixel_height g
  ∧ in_data_region g x0 y0 ∧ in_data_region g x1 y1.
Proof.
  intros Hg Hb Hfit Hrow Hcol.
  destruct (fitting_geometry _ _ _ _ _ _ Hg Hb ltac:(lia) Hfit)
    as (Hbs1 & Hox & Hoy & Hright & Hbottom & Hbb & Hwb & Hsum).
  apply init_Ok_inv in Hg
    as (_ & Eb & Ew & Hpw & Hph & Htah & Htg & _ & _ & _ & Hoy' & Htoy & _).
  unfold pixel_box, in_data_region. cbv zeta. rewrite Eb, Ew in *.
  assert (0 ≤ row * box_size g) by nia.
  assert (0 ≤ col * box_size g) by nia.
  assert (row * box_size g + box_size g ≤ w * box_size g) by nia.
  assert (col * box_size g + box_size g ≤ w * box_size g) by nia.
  rewrite Htoy, Htg, Htah, Hph.
  pose proof (Z.div_mod (864 - (pixel_size g + 42 + 240)) 2 ltac:(lia)).
  pose proof (Z.mod_pos_bound (864 - (pixel_size g + 42 + 240)) 2 ltac:(lia)).
  repeat split; lia.
Qed.

Lemma X4_pixel_box_on_canvas_witness :
  ∃ g, init 4 21 2 None [] = Ok g
  ∧ let '((x0, y0), (x1, y1)) := pixel_box g 20 20 in
    0 ≤ x0 ≤ x1 ∧ x1 < pixel_width g
    ∧ 0 ≤ y0 ≤ y1 ∧ y1 < text_offset_y g - text_gap g
    ∧ text_offset_y g + text_area_height g ≤ pixel_height g
    ∧ in_data_region g x0 y0 ∧ in_data_region g x1 y1.
Proof.
  eexists. split; [reflexivity|].
  eapply (X4_pixel_box_on_canvas 4 21 2 None [] _ 20 20);
    [reflexivity | lia | by vm_compute | lia | lia].
Defined.

(** X5: on a grid of width >= 14 a cell is an eye exactly when it lies in
    one of the three 7x7 corner squares (top left, top right, bottom left),
    which are pairwise disjoint; on a grid of width <= 7 every cell is an
    eye; and the predicate has no bounds check: it is true for every cell
    left of and above the grid. *)
Theorem X5_is_eye_grid (self : BaseImage) (row col : Z) :
  (14 ≤ width self → 0 ≤ row < width self → 0 ≤ col < width self →
     let top_left := row < 7 ∧ col < 7 in
     let top_right := row < 7 ∧ width self - 7 ≤ col in
     let bottom_left := width self - 7 ≤ row ∧ col < 7 in
     (is_eye self row col = true ↔ top_left ∨ top_right ∨ bottom_left)
     ∧ ¬ (top_left ∧ top_right) ∧ ¬ (top_left ∧ bottom_left)
     ∧ ¬ (top_right ∧ bottom_left))
  ∧ (width self ≤ 7 → 0 ≤ row < width self → 0 ≤ col < width self →
       is_eye self row col = true)
  ∧ (row < 0 → col < 0 → is_eye self row col = true).
Proof.
  assert (is_eye self row col = true ↔
     (row < 7 ∧ col < 7) ∨ (row < 7 ∧ width self - col < 8)
     ∨ (width self - row < 8 ∧ col < 7)) as Hspec.
  { unfold is_eye.
    rewrite !orb_true_iff, !andb_true_iff, !bool_decide_eq_true. tauto. }
  split; [|split].
  - intros Hw Hrow Hcol. cbv zeta. rewrite Hspec. lia.
  - intros Hw Hrow Hcol. apply Hspec. lia.
  - intros Hrow Hcol. apply Hspec. lia.
Qed.

Lemma X5_is_eye_grid_witness :
  let self := mkBaseImage 4 25 576 864 240 42 396 12 90 93 531 [] in
  (is_eye self 20 3 = true ↔
     (20 < 7 ∧ 3 < 7) ∨ (20 < 7 ∧ 25 - 7 ≤ 3) ∨ (25 - 7 ≤ 20 ∧ 3 < 7))
  ∧ is_eye self (-1) (-1) = true.
Proof.
  intros self.
  destruct (X5_is_eye_grid self 20 3) as (Hbig & _ & _).
  destruct (X5_is_eye_grid self (-1) (-1)) as (_ & _ & Hout).
  destruct Hbig as (Hiff & _); [simpl; lia | simpl; lia | simpl; lia |].
  split; [exact Hiff | apply Hout; lia].
Defined.

(** * Further properties of the streaming backend *)

Section StreamingImage.
Implicit Types (self : BaseImage) (module_row : list bool).

Lemma pixel_at_lookup (rows : list (list Z)) px py (row : list Z) p :
  0 ≤ px → 0 ≤ py →
  rows !! Z.to_nat py = Some row → row !! Z.to_nat px = Some p →
  pixel_at rows px py = Some p.
Proof.
  intros Hx Hy Hrow Hp. unfold pixel_at.
  destruct (decide (0 ≤ px ∧ 0 ≤ py)) as [_|Hn]; [|lia].
  rewrite Hrow. simpl. done.
Qed.

(** A list that is a constant outside a middle part. *)
Lemma lookup_constant_sides {A} (x : A) (n1 n2 : nat) (mid : list A) i :
  (i < n1 ∨ n1 + length mid ≤ i < n1 + length mid + n2)%nat →
  (replicate n1 x ++ mid ++ replicate n2 x) !! i = Some x.
Proof.
  intros [Hi|Hi].
  - rewrite lookup_app_l by (rewrite length_replicate; lia).
    by apply lookup_replicate_2.
  - rewrite lookup_app_r by (rewrite length_replicate; lia).
    rewrite length_replicate.
    rewrite lookup_app_r by lia.
    apply lookup_replicate_2. lia.
Qed.

Lemma lookup_middle {A} (x : A) (n1 n2 : nat) (mid : list A) i :
  (n1 ≤ i < n1 + length mid)%nat →
  ∃ y, (replicate n1 x ++ mid ++ replicate n2 x) !! i = Some y ∧ y ∈ mid.
Proof.
  intros Hi.
  rewrite lookup_app_r by (rewrite length_replicate; lia).
  rewrite length_replicate.
  destruct (lookup_lt_is_Some_2 mid (i - n1)) as [y Hy]; [lia|].
  exists y. split; [by apply lookup_app_l_Some|].
  by eapply list_elem_of_lookup_2.
Qed.

(** A data row: light pixels, the expanded modules, light pixels. *)
Lemma full_row_sides self module_row :
  full_row self module_row
  = replicate (Z.to_nat (qr_offset_x self)
               + Z.to_nat (box_size self * border self)) 1
    ++ (module_row ≫= λ point, list_mul (py_not point) (box_size self))
    ++ replicate (Z.to_nat (box_size self * border self)
                  + Z.to_nat (pixel_width self - qr_offset_x self
                              - pixel_size self)) 1.
Proof.
  unfold full_row, qr_row, left_padding, right_padding, border_col, list_mul.
  rewrite !replicate_add. by rewrite <- !(assoc_L (++)).
Qed.
End StreamingImage.

(** X7: the streaming backend agrees with pixel_box. In a constructed
    geometry with border >= 0 whose symbol is no wider than the canvas,
    every pixel of pixel_box(row, col) is, in the rows of rows_iter, dark
    when module (row, col) is dark and light when it is light. *)
Theorem X7_streaming_matches_pixel_box b w bs qs mods g row col
    (module_row : list bool) (point : bool) px py :
  init b w bs qs mods = Ok g → 0 ≤ b →
  pixel_size g ≤ pixel_width g →
  0 ≤ row → 0 ≤ col →
  mods !! Z.to_nat row = Some module_row →
  module_row !! Z.to_nat col = Some point →
  in_box (pixel_box g row col) px py →
  pixel_at (rows_iter g) px py = Some (if point then dark else light).
Proof.
  intros Hg Hb Hfit Hrow Hcol Hmrow Hpoint Hin.
  apply in_box_pixel_box in Hin as [Hx Hy]. simpl in Hx, Hy.
  apply init_Ok_inv in Hg
    as (_ & Eb & _ & Hpw & _ & _ & _ & Hbs & Hps & Hox & Hoy & _ & Hmods).
  rewrite Eb in Hx, Hy. rewrite Hpw in Hfit.
  assert (1 ≤ box_size g) as Hbs1 by lia.
  assert (0 ≤ b * box_size g) by nia.
  assert (0 ≤ row * box_size g) by nia.
  assert (0 ≤ col * box_size g) by nia.
  assert (0 ≤ qr_offset_x g).
  { rewrite Hox. apply Z.div_pos; lia. }
  assert (0 ≤ qr_offset_y g).
  { rewrite Hoy. apply Z.div_pos; lia. }
  set (j := px - ((col + b) * box_size g + qr_offset_x g)).
  set (k := py - ((row + b) * box_size g + qr_offset_y g)).
  assert (Z.to_nat (row * box_size g)
          = (Z.to_nat row * Z.to_nat (box_size g))%nat) as Hrn
    by (rewrite Z2Nat.inj_mul; lia).
  assert (Z.to_nat (col * box_size g)
          = (Z.to_nat col * Z.to_nat (box_size g))%nat) as Hcn
    by (rewrite Z2Nat.inj_mul; lia).
  apply (pixel_at_lookup _ _ _ (full_row g module_row)); [lia | lia | |].
  - replace (Z.to_nat py)
      with (Z.to_nat (qr_offset_y g) + Z.to_nat (border g * box_size g)
            + Z.to_nat row * Z.to_nat (box_size g) + Z.to_nat k)%nat
      by (rewrite Eb; subst k; lia).
    apply lookup_rows_iter; [by rewrite Hmods | subst k; lia].
  - replace (Z.to_nat px)
      with (Z.to_nat (qr_offset_x g) + Z.to_nat (box_size g * border g)
            + Z.to_nat col * Z.to_nat (box_size g) + Z.to_nat j)%nat.
    + apply lookup_full_row; [done | subst j; lia].
    + rewrite Eb. replace (box_size g * b) with (b * box_size g) by lia.
      subst j. lia.
Qed.

Lemma X7_streaming_matches_pixel_box_witness :
  ∃ g, init 0 3 1 (Some 6) [[false; true; false]; [true; true; true];
                              [false; false; true]] = Ok g
       ∧ pixel_box g 2 2 = ((289, 292), (290, 293))
       ∧ pixel_at (rows_iter g) 290 293 = Some dark.
Proof.
  eexists. split; [reflexivity|]. split; [reflexivity|].
  eapply (X7_streaming_matches_pixel_box 0 3 1 (Some 6) _ _ 2 2
            [false; false; true] true 290 293);
    [reflexivity | lia | by vm_compute | lia | lia | reflexivity
    | reflexivity | ].
  apply in_box_pixel_box. by vm_compute.
Defined.

Section StreamingBackground.
Implicit Types (self : BaseImage) (module_row : list bool).

(** When the symbol fits, a border row is a canvas row. *)
Lemma border_rows_are_canvas_rows b w bs qs mods g :
  init b w bs qs mods = Ok g → 0 ≤ b → 1 ≤ w →
  pixel_size g ≤ pixel_width g →
  border_rows_iter g
  = replicate (Z.to_nat (border g * box_size g)) (canvas_row g).
Proof.
  intros Hg Hb Hw Hfit.
  destruct (fitting_geometry _ _ _ _ _ _ Hg Hb Hw Hfit)
    as (Hbs1 & Hox & Hoy & Hright & Hbottom & Hbb & Hwb & Hsum).
  unfold border_rows_iter, yield_times, canvas_row, list_mul. cbv zeta.
  f_equal. rewrite <- !replicate_add. f_equal.
  replace (box_size g * (width g + border g * 2)) with (pixel_size g) by lia.
  lia.
Qed.

(** The rows of a fitting image: canvas rows, the data rows, canvas rows. *)
Lemma rows_iter_sides b w bs qs mods g :
  init b w bs qs mods = Ok g → 0 ≤ b → 1 ≤ w →
  pixel_size g ≤ pixel_width g →
  rows_iter g
  = replicate (Z.to_nat (qr_offset_y g) + Z.to_nat (border g * box_size g))
      (canvas_row g)
    ++ (modules g ≫= λ module_row,
          replicate (Z.to_nat (box_size g)) (full_row g module_row))
    ++ replicate (Z.to_nat (border g * box_size g)
                  + Z.to_nat (pixel_height g - qr_offset_y g - pixel_size g))
         (canvas_row g).
Proof.
  intros Hg Hb Hw Hfit. unfold rows_iter. cbv zeta.
  rewrite (border_rows_are_canvas_rows _ _ _ _ _ _ Hg Hb Hw Hfit).
  unfold yield_times. rewrite !replicate_add.
  by rewrite <- !(assoc_L (++)).
Qed.

Lemma lookup_canvas_row self px :
  0 ≤ px < pixel_width self →
  canvas_row self !! Z.to_nat px = Some 1.
Proof.
  intros Hpx. unfold canvas_row, list_mul. apply lookup_replicate_2. lia.
Qed.
End StreamingBackground.

(** X8: in a constructed geometry with border >= 0, width >= 1 and a
    width x width matrix whose symbol is no wider than the canvas, every
    canvas pixel outside the symbol's data region is light: the border, the
    margins and the text band carry no dark pixel, whatever the modules
    are. *)
Theorem X8_background_light b w bs qs mods g px py :
  init b w bs qs mods = Ok g → 0 ≤ b → 1 ≤ w → square_matrix w mods →
  pixel_size g ≤ pixel_width g →
  0 ≤ px < pixel_width g → 0 ≤ py < pixel_height g →
  ¬ in_data_region g px py →
  pixel_at (rows_iter g) px py = Some light.
Proof.
  intros Hg Hb Hw [Hrows Hcols] Hfit Hpx Hpy Hout.
  destruct (fitting_geometry _ _ _ _ _ _ Hg Hb Hw Hfit)
    as (Hbs1 & Hox & Hoy & Hright & Hbottom & Hbb & Hwb & Hsum).
  pose proof (rows_iter_sides _ _ _ _ _ _ Hg Hb Hw Hfit) as Hsides.
  apply init_Ok_inv in Hg
    as (_ & Eb & Ew & Hpw & Hph & _ & _ & _ & _ & _ & _ & _ & Hmods).
  rewrite Eb, Ew in *.
  assert (Z.to_nat (w * box_size g)
          = (Z.to_nat w * Z.to_nat (box_size g))%nat) as Hwn
    by (rewrite Z2Nat.inj_mul; lia).
  set (data := modules g ≫= λ module_row,
                 replicate (Z.to_nat (box_size g)) (full_row g module_row))
    in Hsides.
  assert (length data = (Z.to_nat w * Z.to_nat (box_size g))%nat) as Hdata.
  { subst data. by rewrite length_bind_replicate, Hmods, Hrows. }
  set (top := (Z.to_nat (qr_offset_y g) + Z.to_nat (b * box_size g))%nat)
    in Hsides.
  destruct (decide (top ≤ Z.to_nat py < top + length data)%nat)
    as [Hband|Hband].
  - (* a data row: the pixel is left or right of the data columns *)
    destruct (lookup_middle (canvas_row g) top
                (Z.to_nat (b * box_size g)
                 + Z.to_nat (pixel_height g - qr_offset_y g - pixel_size g))
                data (Z.to_nat py) Hband) as (row & Hrow & Hin).
    rewrite <- Hsides in Hrow.
    apply (pixel_at_lookup _ _ _ row); [lia | lia | done |].
    subst data. apply list_elem_of_bind in Hin as (module_row & Hin & Hmr).
    apply elem_of_replicate_inv in Hin as ->.
    rewrite Hmods in Hmr.
    assert (length module_row = Z.to_nat w) as Hlen
      by (by eapply (proj1 (Forall_forall _ _) Hcols)).
    rewrite full_row_sides. apply lookup_constant_sides.
    rewrite Eb. unfold list_mul.
    rewrite length_bind_replicate, Hlen.
    replace (box_size g * b) with (b * box_size g) by lia.
    unfold in_data_region in Hout. cbv zeta in Hout.
    rewrite Eb, Ew in Hout. subst top. lia.
  - (* a canvas row *)
    apply (pixel_at_lookup _ _ _ (canvas_row g)); [lia | lia | |].
    + rewrite Hsides. apply lookup_constant_sides. subst top. lia.
    + by apply lookup_canvas_row.
Qed.

Lemma X8_background_light_witness :
  ∃ g, init 0 3 1 (Some 6) [[true; true; true]; [true; true; true];
                              [true; true; true]] = Ok g
       ∧ pixel_at (rows_iter g) 284 288 = Some light
       ∧ pixel_at (rows_iter g) 285 288 = Some dark.
Proof.
  eexists. split; [reflexivity|]. split; [|by vm_compute].
  eapply (X8_background_light 0 3 1 (Some 6) _ _ 284 288);
    [reflexivity | lia | lia | by repeat constructor | by vm_compute
    | by vm_compute | by vm_compute | ].
  unfold in_data_region. vm_compute. intros [[H _] _]. by apply H.
Defined.

Section DarkTotals.
Implicit Types (self : BaseImage) (rows : list (list Z)).

Lemma total_dark_pixels_app rows1 rows2 :
  total_dark_pixels (rows1 ++ rows2)
  = (total_dark_pixels rows1 + total_dark_pixels rows2)%nat.
Proof.
  unfold total_dark_pixels. by rewrite fmap_app, sum_list_with_app.
Qed.

Lemma total_dark_pixels_replicate n (row : list Z) :
  total_dark_pixels (replicate n row) = (n * dark_pixels row)%nat.
Proof.
  unfold total_dark_pixels. rewrite fmap_replicate, sum_list_replicate. lia.
Qed.

Lemma total_dark_pixels_border_rows self :
  total_dark_pixels (border_rows_iter self) = 0%nat.
Proof.
  unfold border_rows_iter, yield_times. cbv zeta.
  rewrite total_dark_pixels_replicate, !dark_pixels_app, !dark_pixels_light.
  lia.
Qed.

Lemma total_dark_pixels_data self (mods : list (list bool)) :
  total_dark_pixels
    (mods ≫= λ module_row,
       yield_times (box_size self) (full_row self module_row))
  = (total_dark_modules mods
     * Z.to_nat (box_size self) * Z.to_nat (box_size self))%nat.
Proof.
  unfold total_dark_modules, yield_times.
  induction mods as [|module_row mods IH]; [done|].
  rewrite bind_cons, total_dark_pixels_app, IH,
    total_dark_pixels_replicate, dark_pixels_full_row.
  rewrite fmap_cons. simpl. lia.
Qed.
End DarkTotals.

(** X9: the image yielded by rows_iter has exactly box_size * box_size dark
    pixels for every dark module of the matrix, and no others, for every
    image object. *)
Theorem X9_dark_pixel_total (self : BaseImage) :
  total_dark_pixels (rows_iter self)
  = (total_dark_modules (modules self)
     * Z.to_nat (box_size self) * Z.to_nat (box_size self))%nat.
Proof.
  unfold rows_iter. cbv zeta.
  rewrite !total_dark_pixels_app, !total_dark_pixels_border_rows,
    total_dark_pixels_data.
  unfold yield_times.
  rewrite !total_dark_pixels_replicate, dark_pixels_canvas_row. lia.
Qed.

(** * [check_kind] *)

(** X10: check_kind accepts a request when the class has no allowed kinds,
    or the requested kind (the argument, or the class's kind when the
    argument is None) is allowed, or its transform is allowed; it then
    returns the transformed kind, and otherwise raises the ValueError that
    names the class and the transformed kind. Without a transform a
    returned kind is therefore allowed or the class unrestricted; with a
    transform the returned kind need not be allowed: PyPNGImage with kind
    PNG and a lower-casing transform returns png. *)
Theorem X10_check_kind (cls : ImageClass) (kind : option string)
    (transform : option (option string → option string)) :
  let requested := match kind with None => cls_kind cls | Some _ => kind end in
  let returned :=
    match transform with Some f => f requested | None => requested end in
  let accepted :=
    no_allowed_kinds cls || kind_in_allowed cls requested
    || kind_in_allowed cls returned in
  check_kind cls kind transform
  = (if accepted then Return returned
     else Throw (ValueError ("Cannot set " +:+ cls_name cls +:+ " type to "
                             +:+ format_kind returned)))
  ∧ (∀ k, check_kind cls kind None = Return k →
          cls_allowed_kinds cls = None ∨ cls_allowed_kinds cls = Some []
          ∨ ∃ allowed s, cls_allowed_kinds cls = Some allowed
                         ∧ k = Some s ∧ s ∈ allowed)
  ∧ check_kind PyPNGImage (Some "PNG") (Some (λ _, Some "png"))
    = Return (Some "png").
Proof.
  cbv zeta. split; [|split; [|reflexivity]].
  - unfold check_kind.
    destruct transform as [f|]; cbv zeta;
      destruct (no_allowed_kinds cls); simpl;
      repeat match goal with
             | |- context [kind_in_allowed ?c ?k] =>
                 destruct (kind_in_allowed c k); simpl
             end; reflexivity.
  - intros k. unfold check_kind, no_allowed_kinds, kind_in_allowed.
    destruct (cls_allowed_kinds cls) as [[|a allowed]|]; simpl; auto.
    intros Hk. right. right.
    destruct (match kind with None => cls_kind cls | Some _ => kind end)
      as [s|]; [|discriminate].
    destruct (bool_decide (s ∈ a :: allowed)) eqn:Hin; [|discriminate].
    injection Hk as <-. apply bool_decide_eq_true in Hin. eauto.
Qed.

(** X11: the PNG backend accepts exactly the kind PNG, given or by
    default, and returns PNG; every other kind raises the ValueError
    "Cannot set PyPNGImage type to <kind>". *)
Theorem X11_check_kind_png (kind : option string) :
  (kind = None ∨ kind = Some "PNG" →
     check_kind PyPNGImage kind None = Return (Some "PNG"))
  ∧ (∀ s, kind = Some s → s ≠ "PNG" →
       check_kind PyPNGImage kind None
       = Throw (ValueError ("Cannot set PyPNGImage type to " +:+ s))).
Proof.
  split.
  - by intros [->| ->].
  - intros s -> Hs. unfold check_kind, no_allowed_kinds, kind_in_allowed.
    simpl. rewrite bool_decide_eq_false_2; [done|].
    by intros ->%list_elem_of_singleton.
Qed.

Lemma X11_check_kind_png_witness :
  check_kind PyPNGImage None None = Return (Some "PNG")
  ∧ check_kind PyPNGImage (Some "JPEG") None
    = Throw (ValueError "Cannot set PyPNGImage type to JPEG").
Proof.
  destruct (X11_check_kind_png None) as [Hok _].
  destruct (X11_check_kind_png (Some "JPEG")) as [_ Hbad].
  split; [apply Hok; by left | by apply (Hbad "JPEG")].
Defined.

Lemma X10_check_kind_witness :
  check_kind PyPNGImage (Some "PNG") None = Return (Some "PNG")
  ∧ (cls_allowed_kinds PyPNGImage = None
     ∨ cls_allowed_kinds PyPNGImage = Some []
     ∨ ∃ allowed s, cls_allowed_kinds PyPNGImage = Some allowed
                    ∧ Some "PNG" = Some s ∧ s ∈ allowed).
Proof.
  destruct (X10_check_kind PyPNGImage (Some "PNG") None) as (_ & Hret & _).
  split; [reflexivity|]. apply Hret. reflexivity.
Defined.

(** * Subscripts and [drawrect_context] *)

Lemma py_getitem_in_range {A} (l : list A) (i : Z) :
  - Z.of_nat (length l) ≤ i < Z.of_nat (length l) →
  ∃ x, l !! Z.to_nat (i `mod` Z.of_nat (length l)) = Some x
       ∧ py_getitem l i = Return x.
Proof.
  intros Hi. unfold py_getitem.
  set (n := Z.of_nat (length l)) in *.
  assert (i `mod` n = if decide (i < 0) then i + n else i) as Hmod.
  { case_decide.
    - symmetry. apply (Z.mod_unique_pos i n (-1)); lia.
    - apply Z.mod_small. lia. }
  rewrite Hmod.
  set (j := if decide (i < 0) then i + n else i) in *.
  assert (0 ≤ j < n) as Hj by (subst j; case_decide; lia).
  destruct (decide (j < 0)); [lia|].
  destruct (lookup_lt_is_Some_2 l (Z.to_nat j)) as [x Hx]; [lia|].
  exists x. by rewrite Hx.
Qed.

Lemma py_getitem_out_of_range {A} (l : list A) (i : Z) :
  i < - Z.of_nat (length l) ∨ Z.of_nat (length l) ≤ i →
  py_getitem l i = Throw IndexError.
Proof.
  intros Hi. unfold py_getitem.
  set (j := if decide (i < 0) then i + Z.of_nat (length l) else i).
  destruct (decide (j < 0)); [done|].
  assert (Z.of_nat (length l) ≤ j) by (subst j; case_decide; lia).
  rewrite (lookup_ge_None_2 l (Z.to_nat j)); [done | lia].
Qed.

Section DrawContextProperties.
Context {QRModuleDrawer Neighbors : Type}.
Variable needs_neighbors : QRModuleDrawer → bool.

(** X12: drawrect_context hands the cell's pixel_box to the eye drawer
    when is_eye holds and to the module drawer otherwise. With a drawer
    that needs neighbours it never fails. With one that does not, and an
    n x n matrix, it passes the module at (row mod n, col mod n) for
    -n <= row, col < n, so a negative index paints the module counted from
    the end, and it raises IndexError for every other row or column. *)
Theorem X12_drawrect_context (self : BaseImageWithDrawer QRModuleDrawer)
    (qr : QRCode Neighbors) (row col : Z) :
  let n := Z.of_nat (length (qr_modules qr)) in
  let drawer :=
    if is_eye (base self) row col then eye_drawer self
    else module_drawer self in
  Forall (λ module_row, Z.of_nat (length module_row) = n) (qr_modules qr) →
  (needs_neighbors drawer = true →
     drawrect_context needs_neighbors self row col qr
     = Return {| call_drawer := drawer;
                 call_box := pixel_box (base self) row col;
                 call_is_active :=
                   ActiveNeighbors (active_with_neighbors qr row col) |})
  ∧ (needs_neighbors drawer = false →
     - n ≤ row < n → - n ≤ col < n →
     ∃ module_row point,
       qr_modules qr !! Z.to_nat (row `mod` n) = Some module_row
       ∧ module_row !! Z.to_nat (col `mod` n) = Some point
       ∧ drawrect_context needs_neighbors self row col qr
         = Return {| call_drawer := drawer;
                     call_box := pixel_box (base self) row col;
                     call_is_active := ActiveBool point |})
  ∧ (needs_neighbors drawer = false →
     ¬ (- n ≤ row < n ∧ - n ≤ col < n) →
     drawrect_context needs_neighbors self row col qr = Throw IndexError).
Proof.
  intros n drawer Hsquare. unfold drawrect_context. fold drawer.
  split; [|split].
  - intros ->. reflexivity.
  - intros -> Hrow Hcol.
    destruct (py_getitem_in_range (qr_modules qr) row Hrow)
      as (module_row & Hmr & ->).
    assert (Z.of_nat (length module_row) = n) as Hlen.
    { eapply (proj1 (Forall_forall _ _) Hsquare).
      by eapply list_elem_of_lookup_2. }
    destruct (py_getitem_in_range module_row col) as (point & Hp & Hget);
      [lia|].
    exists module_row, point. rewrite Hlen in Hp.
    split; [done|]. split; [done|]. simpl. by rewrite Hget.
  - intros -> Hout.
    destruct (decide (- n ≤ row < n)) as [Hrow|Hrow].
    + destruct (py_getitem_in_range (qr_modules qr) row Hrow)
        as (module_row & Hmr & ->).
      assert (Z.of_nat (length module_row) = n) as Hlen.
      { eapply (proj1 (Forall_forall _ _) Hsquare).
        by eapply list_elem_of_lookup_2. }
      simpl. rewrite py_getitem_out_of_range; [done | lia].
    + rewrite py_getitem_out_of_range; [done | lia].
Qed.
End DrawContextProperties.

Lemma X12_drawrect_context_witness :
  let self :=
    {| module_drawer := "square"; eye_drawer := "eye";
       base := mkBaseImage 0 2 576 864 240 42 414 207 81 84 540
                 [[true; false]; [false; false]] |} in
  let qr := mkQRCode [[true; false]; [false; false]] (λ _ _, ()) in
  drawrect_context (λ _, false) self (-2) 0 qr
  = Return {| call_drawer := "eye";
              call_box := ((81, -330), (287, -124));
              call_is_active := ActiveBool true |}
  ∧ drawrect_context (λ _, false) self 2 0 qr = Throw IndexError.
Proof.
  intros self qr.
  destruct (X12_drawrect_context (λ _, false) self qr (-2) 0)
    as (_ & Hin & _); [by repeat constructor|].
  destruct (X12_drawrect_context (λ _, false) self qr 2 0)
    as (_ & _ & Hout); [by repeat constructor|].
  destruct Hin as (module_row & point & Hmr & Hp & Hcall);
    [reflexivity | simpl; lia | simpl; lia |].
  injection Hmr as <-. injection Hp as <-.
  split; [exact Hcall|]. apply Hout; [reflexivity | simpl; lia].
Defined.

(** * [generate_from_csv] *)

Section CsvProperties.
Context {char : Type} `{EqDecision char}.
Variable isalnum : char → bool.
Variables dot underscore dash space : char.

Let allowed (c : char) : Prop :=
  isalnum c = true ∨ c ∈ [dot; underscore; dash; space].

Lemma safe_char_allowed c :
  allowed c → safe_char isalnum dot underscore dash space c = c.
Proof.
  intros [Ha|Hin]; unfold safe_char.
  - by rewrite Ha.
  - rewrite (bool_decide_eq_true_2 _ Hin). by rewrite orb_true_r.
Qed.

Lemma safe_char_is_allowed c :
  allowed (safe_char isalnum dot underscore dash space c).
Proof.
  unfold safe_char.
  destruct (isalnum c) eqn:Ha; simpl; [by left|].
  case_bool_decide as Hin; [by right|].
  right. set_solver.
Qed.

Lemma safe_char_rejected c :
  ¬ allowed c → safe_char isalnum dot underscore dash space c = underscore.
Proof.
  intros Hn. unfold safe_char.
  destruct (isalnum c) eqn:Ha; [exfalso; apply Hn; by left|].
  rewrite bool_decide_eq_false_2; [done|].
  intros Hin. apply Hn. by right.
Qed.

(** X13: the sanitised file name has the length of the part number; at
    every position an alphanumeric character or a character of "._- " is
    kept as it is and any other character is replaced by "_", so the name
    consists of such characters only; sanitising is idempotent and leaves a
    clean name unchanged; and it is not injective: part numbers that differ
    only in rejected characters get the same file name. *)
Theorem X13_safe_filename (part_number : list char) :
  let safe := safe_filename isalnum dot underscore dash space in
  length (safe part_number) = length part_number
  ∧ (∀ i c, part_number !! i = Some c →
       (allowed c → safe part_number !! i = Some c)
       ∧ (¬ allowed c → safe part_number !! i = Some underscore))
  ∧ Forall allowed (safe part_number)
  ∧ safe (safe part_number) = safe part_number
  ∧ (Forall allowed part_number → safe part_number = part_number)
  ∧ (∀ other,
       Forall2 (λ c1 c2, c1 = c2 ∨ (¬ allowed c1 ∧ ¬ allowed c2))
         part_number other →
       safe part_number = safe other).
Proof.
  cbv zeta. unfold safe_filename.
  split; [by rewrite length_fmap|]. split; [|split; [|split; [|split]]].
  - intros i c Hc. rewrite list_lookup_fmap, Hc. simpl.
    split; intros Hallowed.
    + by rewrite safe_char_allowed.
    + by rewrite safe_char_rejected.
  - apply Forall_fmap, Forall_forall. intros c _. apply safe_char_is_allowed.
  - rewrite <- list_fmap_compose. apply list_fmap_ext. intros i c _. simpl.
    apply safe_char_allowed, safe_char_is_allowed.
  - intros Hall. rewrite <- (list_fmap_id part_number) at 2.
    apply Forall_fmap_ext_1. eapply Forall_impl; [exact Hall|].
    intros c Hc. by apply safe_char_allowed.
  - intros other Hrel. induction Hrel as [|c1 c2 l1 l2 Hc _ IH]; [done|].
    rewrite !fmap_cons, IH. f_equal.
    destruct Hc as [->|[Hn1 Hn2]]; [done|].
    unfold safe_char.
    destruct (isalnum c1) eqn:H1; [exfalso; apply Hn1; by left|].
    destruct (isalnum c2) eqn:H2; [exfalso; apply Hn2; by left|].
    simpl. rewrite !bool_decide_eq_false_2; [done | |].
    + intros Hin. apply Hn2. by right.
    + intros Hin. apply Hn1. by right.
Qed.
End CsvProperties.

Lemma X13_safe_filename_witness :
  let isalnum := λ c : ascii, bool_decide (c ∈ ["A"; "7"]%char) in
  let safe := safe_filename isalnum "."%char "_"%char "-"%char " "%char in
  safe ["A"; "/"; "7"]%char !! 0%nat = Some "A"%char
  ∧ safe ["A"; "/"; "7"]%char !! 1%nat = Some "_"%char
  ∧ safe ["A"; "/"; "7"]%char = safe ["A"; "?"; "7"]%char
  ∧ safe ["A"; "-"; "7"]%char = ["A"; "-"; "7"]%char.
Proof.
  intros isalnum safe.
  destruct (X13_safe_filename isalnum "."%char "_"%char "-"%char " "%char
              ["A"; "/"; "7"]%char) as (_ & Hpos & _ & _ & _ & Hsame).
  destruct (X13_safe_filename isalnum "."%char "_"%char "-"%char " "%char
              ["A"; "-"; "7"]%char) as (? & ? & ? & ? & Hclean & ?).
  assert (¬ (isalnum "/"%char = true
             ∨ "/"%char ∈ ["."; "_"; "-"; " "]%char)) as Hslash.
  { intros [Ha|Hin]; [discriminate|].
    repeat (apply elem_of_cons in Hin as [Hin|Hin]; [discriminate|]).
    by apply elem_of_nil in Hin. }
  assert (¬ (isalnum "?"%char = true
             ∨ "?"%char ∈ ["."; "_"; "-"; " "]%char)) as Hquestion.
  { intros [Ha|Hin]; [discriminate|].
    repeat (apply elem_of_cons in Hin as [Hin|Hin]; [discriminate|]).
    by apply elem_of_nil in Hin. }
  split; [|split; [|split]].
  - apply (Hpos 0%nat "A"%char); [reflexivity | by left].
  - apply (Hpos 1%nat "/"%char); [reflexivity | exact Hslash].
  - apply Hsame.
    constructor; [by left|]. constructor; [by right|].
    constructor; [by left | constructor].
  - apply Hclean.
    apply Forall_cons; split; [by left|].
    apply Forall_cons; split; [right; set_solver|].
    apply Forall_cons; split; [by left | by apply Forall_nil].
Defined.

Section CsvValues.
Context {cell : Type}.
Implicit Types (reader : list (list cell)) (row : list cell).

Lemma py_getitem_nonneg row (i : Z) :
  0 ≤ i →
  py_getitem row i
  = match row !! Z.to_nat i with
    | Some x => Return x
    | None => Throw IndexError
    end.
Proof.
  intros Hi. unfold py_getitem.
  destruct (decide (i < 0)); [lia|]. destruct (decide (i < 0)); [lia|]. done.
Qed.

Lemma csv_collect_nonneg reader column :
  0 ≤ column →
  csv_collect reader column
  = Return (omap (λ row, (λ x, [x]) <$> row !! Z.to_nat column) reader).
Proof.
  intros Hc. induction reader as [|row reader IH]; [done|].
  simpl. rewrite IH. case_decide as Hlen.
  - rewrite py_getitem_nonneg by done.
    destruct (lookup_lt_is_Some_2 row (Z.to_nat column)) as [x Hx]; [lia|].
    by rewrite Hx.
  - rewrite (lookup_ge_None_2 row (Z.to_nat column)) by lia. done.
Qed.

Lemma csv_collect_negative_ok reader column :
  column < 0 →
  Forall (λ row, - column ≤ Z.of_nat (length row)) reader →
  ∃ values,
    csv_collect reader column = Return values
    ∧ Forall2 (λ row value,
         ∃ x, row !! Z.to_nat (Z.of_nat (length row) + column) = Some x
              ∧ value = [x]) reader values.
Proof.
  intros Hc Hall. induction Hall as [|row reader Hrow _ IH].
  - exists []. split; [done | constructor].
  - destruct IH as (values & Hvalues & Hrel). simpl. rewrite Hvalues.
    destruct (decide (Z.of_nat (length row) > column)); [|lia].
    destruct (py_getitem_in_range row column) as (x & Hx & ->); [lia|].
    exists ([x] :: values). split; [done|]. constructor; [|done].
    exists x. split; [|done]. rewrite <- Hx. f_equal. f_equal.
    apply (Z.mod_unique_pos column _ (-1)); lia.
Qed.

Lemma csv_collect_negative_fail reader column :
  column < 0 →
  Exists (λ row, Z.of_nat (length row) < - column) reader →
  csv_collect reader column = Throw IndexError.
Proof.
  intros Hc Hex. induction reader as [|row reader IH].
  - by apply Exists_nil in Hex.
  - simpl. destruct (decide (Z.of_nat (length row) > column)); [|lia].
    destruct (decide (Z.of_nat (length row) < - column)) as [Hshort|Hlong].
    + rewrite py_getitem_out_of_range by lia. done.
    + destruct (py_getitem_in_range row column) as (x & _ & ->); [lia|].
      apply Exists_cons in Hex as [Hex|Hex]; [lia|].
      simpl. by rewrite IH.
Qed.

(** X14: on the rows the reader yields, with a column index >= 0, every
    subscript row[column] the loop evaluates is in range, so the loop
    itself raises no IndexError: it collects, in file order, one
    single-element list per row that has that column, and silently drops
    the shorter rows; with skip_header the first row yielded is not used.
    Failures of the reader while decoding or parsing are not part of this
    statement. *)
Theorem X14_csv_values_column reader (column : Z) (skip_header : bool) :
  0 ≤ column →
  csv_values reader column skip_header
  = Return (omap (λ row, (λ x, [x]) <$> row !! Z.to_nat column)
              (if skip_header then drop 1 reader else reader)).
Proof. intros Hc. unfold csv_values. by apply csv_collect_nonneg. Qed.

(** X15: a negative column index counts from the end of each row. No row
    is dropped: if every row read has at least -column cells, the loop
    returns one value per row, the cell at position len(row) + column; if
    some row is shorter (an empty line is enough), the subscript raises
    IndexError and no value at all is collected. *)
Theorem X15_csv_values_negative_column reader (column : Z)
    (skip_header : bool) :
  column < 0 →
  let rows := if skip_header then drop 1 reader else reader in
  (Forall (λ row, - column ≤ Z.of_nat (length row)) rows →
     ∃ values,
       csv_values reader column skip_header = Return values
       ∧ Forall2 (λ row value,
            ∃ x, row !! Z.to_nat (Z.of_nat (length row) + column) = Some x
                 ∧ value = [x]) rows values)
  ∧ (Exists (λ row, Z.of_nat (length row) < - column) rows →
     csv_values reader column skip_header = Throw IndexError).
Proof.
  intros Hc rows. unfold csv_values. fold rows. split.
  - by apply csv_collect_negative_ok.
  - by apply csv_collect_negative_fail.
Qed.
End CsvValues.

Lemma X14_csv_values_column_witness :
  csv_values [["part"; "qty"]; ["A-1"; "3"]; []; ["B-2"]] 1 true
  = Return [["3"]].
Proof.
  apply (X14_csv_values_column [["part"; "qty"]; ["A-1"; "3"]; []; ["B-2"]]
           1 true).
  lia.
Defined.

Lemma X15_csv_values_negative_column_witness :
  csv_values [["A-1"; "3"]; []; ["B-2"]] (-1) false = Throw IndexError
  ∧ ∃ values, csv_values [["A-1"; "3"]; ["B-2"]] (-1) false = Return values.
Proof.
  destruct (X15_csv_values_negative_column [["A-1"; "3"]; []; ["B-2"]]
              (-1) false) as [_ Hfail]; [lia|].
  destruct (X15_csv_values_negative_column [["A-1"; "3"]; ["B-2"]]
              (-1) false) as [Hok _]; [lia|].
  split.
  - apply Hfail. apply Exists_cons. right. apply Exists_cons. left.
    simpl. lia.
  - destruct Hok as (values & Hvalues & _).
    + repeat (apply Forall_cons; split; [simpl; lia|]). by apply Forall_nil.
    + by exists values.
Defined.

(** * [commas], [get_factory] and the factory selection *)

Lemma str_app_assoc (s1 s2 s3 : string) :
  (s1 +:+ s2) +:+ s3 = s1 +:+ (s2 +:+ s3).
Proof.
  induction s1 as [|c s1 IH]; [done|].
  change (String c ((s1 +:+ s2) +:+ s3) = String c (s1 +:+ (s2 +:+ s3))).
  by rewrite IH.
Qed.

Lemma str_join_cons sep x y rest :
  str_join sep (x :: y :: rest) = x +:+ sep +:+ str_join sep (y :: rest).
Proof. reflexivity. Qed.

(** X16: commas of no item is the empty string, of one item the item, of
    two items "x joiner y" without a comma, and of three or more items the
    first item, a comma and a space, and commas of the rest: the joiner
    appears once, before the last item. *)
Theorem X16_commas (joiner : string) :
  commas [] joiner = ""
  ∧ (∀ x, commas [x] joiner = x)
  ∧ (∀ x y, commas [x; y] joiner = x +:+ " " +:+ joiner +:+ " " +:+ y)
  ∧ (∀ x y z rest,
       commas (x :: y :: z :: rest) joiner
       = x +:+ ", " +:+ commas (y :: z :: rest) joiner).
Proof.
  split; [done|]. split; [done|]. split; [done|].
  intros x y z rest. unfold commas.
  replace (length (x :: y :: z :: rest) - 1)%nat
    with (S (S (length rest))) by (simpl; lia).
  replace (length (y :: z :: rest) - 1)%nat
    with (S (length rest)) by (simpl; lia).
  rewrite (firstn_cons (S (length rest)) x (y :: z :: rest)).
  rewrite (firstn_cons (length rest) y (z :: rest)).
  by rewrite str_join_cons, !str_app_assoc.
Qed.

Lemma contains_dot_rsplit_dot (s : string) :
  contains_dot s = false ↔ rsplit_dot s = None.
Proof.
  induction s as [|c s IH]; [done|]. simpl.
  destruct (rsplit_dot s) as [[before after]|].
  - assert (contains_dot s = true) as ->.
    { destruct (contains_dot s); [done|]. discriminate (proj1 IH eq_refl). }
    rewrite orb_true_r. done.
  - rewrite (proj2 IH eq_refl), orb_false_r.
    by destruct (bool_decide (c = "."%char)).
Qed.

Lemma rsplit_dot_Some (s before after : string) :
  rsplit_dot s = Some (before, after) →
  s = before +:+ "." +:+ after ∧ contains_dot after = false.
Proof.
  revert before. induction s as [|c s IH]; intros before Hs; [done|].
  simpl in Hs. destruct (rsplit_dot s) as [[before' after']|] eqn:Hrest.
  - injection Hs as <- <-. destruct (IH before' eq_refl) as [-> Hafter].
    done.
  - case_bool_decide as Hc; [|done]. injection Hs as <- <-. subst c.
    split; [done|]. by apply contains_dot_rsplit_dot.
Qed.

Section FactoryProperties.
Context {Factory : Type}.
Variable import_attr : string → string → outcome Factory.

Lemma get_factory_no_dot (module : string) :
  contains_dot module = false →
  get_factory import_attr module
  = Throw (ValueError "The image factory is not a full python path").
Proof. intros Hdot. unfold get_factory. by rewrite Hdot. Qed.

Lemma get_factory_dotted (module : string) :
  contains_dot module = true →
  ∃ module1 name,
    module = module1 +:+ "." +:+ name
    ∧ contains_dot name = false
    ∧ get_factory import_attr module = import_attr module1 name.
Proof.
  intros Hdot. unfold get_factory. rewrite Hdot. simpl.
  destruct (rsplit_dot module) as [[module1 name]|] eqn:Hsplit.
  - destruct (rsplit_dot_Some _ _ _ Hsplit) as [Hjoin Hname]. eauto.
  - apply contains_dot_rsplit_dot in Hsplit. congruence.
Qed.

(** X17: get_factory raises ValueError "The image factory is not a full
    python path" for a name without a dot, without importing anything;
    otherwise it imports the part before the last dot and takes from it
    the attribute named after the last dot, and the two parts joined by a
    dot are the given path. *)
Theorem X17_get_factory (module : string) :
  (contains_dot module = false →
     get_factory import_attr module
     = Throw (ValueError "The image factory is not a full python path"))
  ∧ (contains_dot module = true →
     ∃ module1 name,
       module = module1 +:+ "." +:+ name
       ∧ contains_dot name = false
       ∧ get_factory import_attr module = import_attr module1 name).
Proof. split; [apply get_factory_no_dot | apply get_factory_dotted]. Qed.

Lemma default_factories_dotted (f path : string) :
  default_factories !! f = Some path →
  contains_dot f = false ∧ contains_dot path = true.
Proof.
  intros Hf. apply elem_of_list_to_map_2 in Hf.
  repeat (apply elem_of_cons in Hf as [Hf|Hf];
          [injection Hf as -> ->; by vm_compute|]).
  by apply elem_of_nil in Hf.
Qed.

(** X18: the factory selection of main. A non-empty name that is neither a
    shortcut of default_factories nor contains a dot ends in the parser
    error "The image factory is not a full python path", with nothing
    imported. Every shortcut maps to a dotted path, so a shortcut always
    reaches the import of that path's module and class, and its result is
    the image factory. Shortcut names contain no dot. *)
Theorem X18_main_image_factory (f : string) :
  f ≠ EmptyString →
  (default_factories !! f = None → contains_dot f = false →
     main_image_factory import_attr (Some f)
     = Throw (ParserExit "The image factory is not a full python path"))
  ∧ (∀ path, default_factories !! f = Some path →
       contains_dot f = false
       ∧ ∃ module1 name,
           path = module1 +:+ "." +:+ name
           ∧ contains_dot name = false
           ∧ ∀ image_factory,
               import_attr module1 name = Return image_factory →
               main_image_factory import_attr (Some f)
               = Return (Some image_factory)).
Proof.
  intros Hf. unfold main_image_factory.
  destruct (decide (f = EmptyString)); [done|]. split.
  - intros -> Hdot. simpl.
    by rewrite (get_factory_no_dot f Hdot).
  - intros path Hpath. rewrite Hpath. simpl.
    destruct (default_factories_dotted _ _ Hpath) as [Hkey Hdot].
    split; [done|].
    destruct (get_factory_dotted path Hdot)
      as (module1 & name & Hjoin & Hname & Hget).
    exists module1, name. split; [done|]. split; [done|].
    intros image_factory Himp. by rewrite Hget, Himp.
Qed.
End FactoryProperties.

Lemma X17_get_factory_witness :
  let import_attr := λ module1 name : string, Return (module1, name) in
  get_factory import_attr "png"
  = Throw (ValueError "The image factory is not a full python path")
  ∧ ∃ module1 name,
      "qrcode.image.pure.PyPNGImage" = module1 +:+ "." +:+ name
      ∧ contains_dot name = false
      ∧ get_factory import_attr "qrcode.image.pure.PyPNGImage"
        = import_attr module1 name.
Proof.
  intros import_attr.
  destruct (X17_get_factory import_attr "png") as [Hno _].
  destruct (X17_get_factory import_attr "qrcode.image.pure.PyPNGImage")
    as [_ Hyes].
  split; [by apply Hno | by apply Hyes].
Defined.

Lemma X18_main_image_factory_witness :
  let import_attr := λ module1 name : string, Return (module1, name) in
  main_image_factory import_attr (Some "jpeg")
  = Throw (ParserExit "The image factory is not a full python path")
  ∧ ∃ image_factory,
      main_image_factory import_attr (Some "png")
      = Return (Some image_factory).
Proof.
  intros import_attr.
  destruct (X18_main_image_factory import_attr "jpeg") as [Hno _]; [done|].
  destruct (X18_main_image_factory import_attr "png") as [_ Hyes]; [done|].
  split; [by apply Hno|].
  destruct (Hyes "qrcode.image.pure.PyPNGImage" eq_refl)
    as (_ & module1 & name & _ & _ & Hmain).
  exists (module1, name). by apply Hmain.
Defined.

(** * Construction with drawers *)

Section DrawerConstruction.
Context {QRModuleDrawer Kwargs : Type}.
Variable drawer_aliases : DrawerAliases QRModuleDrawer Kwargs.
Variable default_drawer_class : unit → QRModuleDrawer.

Lemma get_drawer_resolved (drawer : drawer_arg QRModuleDrawer) m :
  resolved drawer_aliases default_drawer_class drawer = Some m →
  ∃ r, get_drawer drawer_aliases drawer = Ok r
       ∧ default (default_drawer_class ()) r = m.
Proof.
  destruct drawer as [|name|d]; simpl.
  - intros [= <-]. by exists None.
  - destruct (drawer_aliases !! name) as [[drawer_cls kwargs]|]; [|done].
    intros [= <-]. by eexists.
  - intros [= <-]. by eexists.
Qed.

Lemma get_drawer_unresolved (drawer : drawer_arg QRModuleDrawer) :
  resolved drawer_aliases default_drawer_class drawer = None →
  ∃ name, drawer = DrawerStr name
          ∧ get_drawer drawer_aliases drawer = Raise (KeyError name).
Proof.
  destruct drawer as [|name|d]; simpl; [done| |done].
  destruct (drawer_aliases !! name) as [[drawer_cls kwargs]|]; [done|].
  intros _. by exists name.
Qed.

(** X6: construction with drawers succeeds exactly when both drawer
    arguments resolve and width + 2*border is not zero. A drawer instance
    is used as given, an alias gives the registered constructor applied to
    its registered arguments, and None gives a new default drawer, for the
    module drawer and the eye drawer independently. An unknown module
    alias is reported before an unknown eye alias, and both before the
    ZeroDivisionError of the geometry. *)
Theorem X6_init_with_drawer
    (module_drawer0 eye_drawer0 : drawer_arg QRModuleDrawer)
    (b w bs : Z) (qs : option Z) (mods : list (list bool)) :
  let construct :=
    init_with_drawer drawer_aliases default_drawer_class
      module_drawer0 eye_drawer0 b w bs qs mods in
  let resolve := resolved drawer_aliases default_drawer_class in
  (∀ m e, resolve module_drawer0 = Some m → resolve eye_drawer0 = Some e →
     (w + 2 * b ≠ 0 →
      ∃ g, init b w bs qs mods = Ok g
           ∧ construct
             = Ok {| module_drawer := m; eye_drawer := e; base := g |})
     ∧ (w + 2 * b = 0 → construct = Raise ZeroDivisionError))
  ∧ (∀ m, resolve module_drawer0 = Some m → resolve eye_drawer0 = None →
       ∃ name, eye_drawer0 = DrawerStr name
               ∧ construct = Raise (KeyError name))
  ∧ (resolve module_drawer0 = None →
       ∃ name, module_drawer0 = DrawerStr name
               ∧ construct = Raise (KeyError name)).
Proof.
  cbv zeta. unfold init_with_drawer. split; [|split].
  - intros m e Hm He.
    destruct (get_drawer_resolved _ _ Hm) as (rm & -> & <-).
    destruct (get_drawer_resolved _ _ He) as (re & Hre & <-).
    cbn -[init get_drawer]. rewrite Hre. cbn -[init]. split.
    + intros Hz. destruct (init_succeeds b w bs qs mods) as [g Hg]; [lia|].
      exists g. by rewrite Hg.
    + intros Hz. rewrite init_zero_modules by lia. done.
  - intros m Hm He.
    destruct (get_drawer_resolved _ _ Hm) as (rm & -> & <-).
    destruct (get_drawer_unresolved _ He) as (name & -> & Hget).
    exists name. split; [done|]. cbn -[init get_drawer]. by rewrite Hget.
  - intros Hm. destruct (get_drawer_unresolved _ Hm) as (name & -> & Hget).
    exists name. split; [done|]. by rewrite Hget.
Qed.
End DrawerConstruction.

Lemma X6_init_with_drawer_witness :
  let aliases : DrawerAliases string Z :=
    {[ "circle" := ((λ _, "CircleModuleDrawer"), 0) ]} in
  let default_class := λ _ : unit, "SquareModuleDrawer" in
  (∃ g, init 4 21 1 None [] = Ok g
        ∧ init_with_drawer aliases default_class
            (DrawerStr "circle") DrawerNone 4 21 1 None []
          = Ok {| module_drawer := "CircleModuleDrawer";
                  eye_drawer := "SquareModuleDrawer"; base := g |})
  ∧ init_with_drawer aliases default_class
      (DrawerObj "mine") DrawerNone 0 0 1 None []
    = Raise ZeroDivisionError.
Proof.
  intros aliases default_class.
  destruct (X6_init_with_drawer aliases default_class
              (DrawerStr "circle") DrawerNone 4 21 1 None []) as (Hok & _).
  destruct (X6_init_with_drawer aliases default_class
              (DrawerObj "mine") DrawerNone 0 0 1 None []) as (Hzero & _).
  split.
  - apply (Hok "CircleModuleDrawer" "SquareModuleDrawer");
      [reflexivity | reflexivity | lia].
  - apply (Hzero "mine" "SquareModuleDrawer");
      [reflexivity | reflexivity | lia].
Defined.
